(** * The Azure OpenAI answer service of the Touch Bar coding assistant

    A shallow embedding of [app/config.py] and [app/azure_service.py]:
    the settings object, the client construction with its retry decorator,
    the chat-completion wrapper and the answer truncation, followed by the
    properties of the answer service.  The callers that add logic of their
    own are embedded too: the start-up checks of [main.py] and
    [main_cli.py], [TouchBarCLI.get_answer] and the [_perform_search] of the
    windows.

    Conventions of the embedding.
    - A Python [str] is a [string]; [len] is [String.length] read in [Z].
      Characters are those of [ascii]; nothing below depends on the
      alphabet.
    - A Python value that may be [None] is an [option].
    - Exceptions are values of [exn]; only subclasses of [Exception] are
      modelled (what the [except Exception] clauses of the source catch).
    - Effects (constructor calls, outbound requests, sleeping between
      retries, the process environment) are threaded through a [World];
      a computation [M A] maps a world to an outcome and the next world, and
      a raised exception keeps the effects performed before it.
    - Logging has no influence on control flow and is left out.
    - [async]/[await] is sequential in the service and is left out. *)

From Stdlib Require Import String Ascii List ZArith QArith Bool Lia DecimalString.
Import ListNotations.

Local Open Scope string_scope.
Local Open Scope Z_scope.

(* ===================================================================== *)
(** ** Python strings                                                      *)
(* ===================================================================== *)

Module PyStr.

(** [len(s)] *)
Definition len (s : string) : Z := Z.of_nat (String.length s).

(** truth value of a string: [bool(s)] *)
Definition truthy (s : string) : bool :=
  match s with EmptyString => false | String _ _ => true end.

(** the first [n] characters (all of them when the string is shorter) *)
Fixpoint take (n : nat) (s : string) : string :=
  match n, s with
  | O, _ => EmptyString
  | S _, EmptyString => EmptyString
  | S n', String c s' => String c (take n' s')
  end.

(** the string without its first [n] characters *)
Fixpoint drop (n : nat) (s : string) : string :=
  match n, s with
  | O, _ => s
  | S _, EmptyString => EmptyString
  | S n', String _ s' => drop n' s'
  end.

(** [s[:stop]]: a negative stop counts from the end, and both are
    clamped to the string. *)
Definition slice_to (stop : Z) (s : string) : string :=
  let n := len s in
  let stop' := if stop <? 0 then Z.max (stop + n) 0 else Z.min stop n in
  take (Z.to_nat stop') s.

(** [s.startswith(p)] *)
Fixpoint startswith (p s : string) : bool :=
  match p, s with
  | EmptyString, _ => true
  | String _ _, EmptyString => false
  | String a p', String b s' => Ascii.eqb a b && startswith p' s'
  end.

(** [s.endswith(p)] *)
Definition endswith (p s : string) : bool :=
  (String.length p <=? String.length s)%nat
  && String.eqb (drop (String.length s - String.length p) s) p.

(** [s.find(sub)]: index of the first occurrence, [None] for -1 *)
Fixpoint find (sub s : string) : option nat :=
  if startswith sub s then Some O
  else match s with
       | EmptyString => None
       | String _ s' => option_map S (find sub s')
       end.

(** [sub in s] *)
Definition contains (sub s : string) : bool :=
  match find sub s with Some _ => true | None => false end.

(** [s.split(sep)[0]] for a non-empty separator *)
Definition split_head (sep s : string) : string :=
  match find sep s with
  | Some i => take i s
  | None => s
  end.

(** [s.rstrip(c)] for a one-character set *)
Fixpoint rstrip (c : ascii) (s : string) : string :=
  match s with
  | EmptyString => EmptyString
  | String a s' =>
      match rstrip c s' with
      | EmptyString => if Ascii.eqb a c then EmptyString else String a EmptyString
      | r => String a r
      end
  end.

(** [sep.join(l)] *)
Fixpoint join (sep : string) (l : list string) : string :=
  match l with
  | [] => EmptyString
  | [x] => x
  | x :: rest => x ++ sep ++ join sep rest
  end.

(** [s * n] *)
Fixpoint repeat (s : string) (n : nat) : string :=
  match n with
  | O => EmptyString
  | S n' => s ++ repeat s n'
  end.

End PyStr.

(* ===================================================================== *)
(** ** Regular expressions, as far as [base_endpoint_pattern] needs them   *)
(* ===================================================================== *)

Module Re.

(** one-character classes *)
Inductive cls : Type :=
| Not (c : ascii)      (* [^c] *)
| Dot.                 (* .  (anything but a newline) *)

Inductive re : Type :=
| Lit (s : string)             (* a literal text, dots escaped *)
| Plus (c : cls)               (* c+  greedy *)
| Star (c : cls)               (* c*  greedy *)
| Seq (r1 r2 : re)
| Alt (r1 r2 : re)             (* r1|r2, left first *)
| Opt (r : re).                (* (?:r)?  greedy *)

Definition newline : ascii := Ascii.ascii_of_nat 10.

Definition cls_matches (c : cls) (a : ascii) : bool :=
  match c with
  | Not x => negb (Ascii.eqb a x)
  | Dot => negb (Ascii.eqb a newline)
  end.

Section Backtracking.
Variable R : Type.

(** greedy repetition of a class: the longest run first, then shorter
    ones; [k] is the rest of the match applied to the unread text *)
Fixpoint star (c : cls) (s : string) (k : string -> option R) : option R :=
  match s with
  | String a s' =>
      if cls_matches c a then
        match star c s' k with
        | Some r => Some r
        | None => k s
        end
      else k s
  | EmptyString => k s
  end.

Fixpoint run (r : re) (s : string) (k : string -> option R) : option R :=
  match r with
  | Lit l => if PyStr.startswith l s then k (PyStr.drop (String.length l) s) else None
  | Plus c =>
      match s with
      | String a s' => if cls_matches c a then star c s' k else None
      | EmptyString => None
      end
  | Star c => star c s k
  | Seq r1 r2 => run r1 s (fun rest => run r2 rest k)
  | Alt r1 r2 =>
      match run r1 s k with
      | Some x => Some x
      | None => run r2 s k
      end
  | Opt r1 =>
      match run r1 s k with
      | Some x => Some x
      | None => k s
      end
  end.
End Backtracking.

(** [re.match(Seq (group) tail, s).group(1)]: the pattern is anchored at
    the start only; group 1 is what the first part consumed. *)
Definition match_group1 (group tail : re) (s : string) : option string :=
  run string group s
    (fun rest1 =>
       run string tail rest1
         (fun _ => Some (PyStr.take (String.length s - String.length rest1) s))).

End Re.

(* ===================================================================== *)
(** ** Exceptions, the world and the effect monad                          *)
(* ===================================================================== *)

(** The exception classes the service distinguishes; anything else raised
    by a library is [OtherError] with its class name. *)
Inductive exn_class : Type :=
| ValueError
| RuntimeError
| TypeError
| RetryError
| OtherError (name : string).

Record exn : Type := mkExn { exn_cls : exn_class; exn_str : string }.

Definition exn_class_eqb (a b : exn_class) : bool :=
  match a, b with
  | ValueError, ValueError => true
  | RuntimeError, RuntimeError => true
  | TypeError, TypeError => true
  | RetryError, RetryError => true
  | OtherError x, OtherError y => String.eqb x y
  | _, _ => false
  end.

(** [isinstance(e, cls)] for the handlers [except cls as e] *)
Definition isinstance (e : exn) (c : exn_class) : bool := exn_class_eqb (exn_cls e) c.

(** A chat message [{"role": r, "content": c}]. *)
Record message : Type := mkMessage { role : string; content : string }.

(** Keyword arguments of [AzureOpenAI(...)]. *)
Record ClientArgs : Type := mkClientArgs {
  api_version : string;
  azure_endpoint : string;
  api_key : string;
  timeout : Q
}.

(** Keyword arguments of [client.chat.completions.create(...)]. *)
Record ChatRequest : Type := mkChatRequest {
  req_messages : list message;
  req_max_tokens : Z;
  req_temperature : Q;
  req_top_p : Q;
  req_model : string;
  req_timeout : Q
}.

(** Keyword arguments of [AzureChatOpenAI(...)]. *)
Record ChatModelArgs : Type := mkChatModelArgs {
  azure_deployment : string;
  openai_api_version : string;
  llm_azure_endpoint : string;
  llm_api_key : string;
  llm_temperature : Q;
  request_timeout : Q;
  llm_model : string
}.

(** What [get_llm] hands out: a LangChain chat model (it has [invoke]) or a
    raw client (it has not). *)
Inductive Client : Type :=
| LangChainModel (args : ChatModelArgs)
| RawClient (args : ClientArgs).

Definition has_invoke (c : Client) : bool :=
  match c with LangChainModel _ => true | RawClient _ => false end.

(** Observable effects, in the order they happen. *)
Inductive event : Type :=
| EvAzureOpenAI (args : ClientArgs)                       (* AzureOpenAI(...) *)
| EvCreate (client : ClientArgs) (req : ChatRequest)      (* chat.completions.create: outbound *)
| EvAzureChatOpenAI (args : ChatModelArgs)                (* AzureChatOpenAI(...) *)
| EvInvoke (llm : ChatModelArgs) (msgs : list message)    (* llm.invoke: outbound *)
| EvSleep (seconds : Z).                                  (* wait between retries *)

Definition is_outbound (e : event) : bool :=
  match e with EvCreate _ _ | EvInvoke _ _ => true | _ => false end.

Definition is_create (e : event) : bool :=
  match e with EvCreate _ _ => true | _ => false end.

Definition is_invoke (e : event) : bool :=
  match e with EvInvoke _ _ => true | _ => false end.

Definition is_construction (e : event) : bool :=
  match e with EvAzureOpenAI _ => true | _ => false end.

(** The world: the trace so far (oldest first) and the one variable of
    [os.environ] the service touches. *)
Record World : Type := mkWorld {
  trace : list event;
  OPENAI_API_KEY : option string
}.

Definition count (p : event -> bool) (w : World) : nat :=
  List.length (List.filter p (trace w)).

(** the seconds slept, in order *)
Definition sleeps (l : list event) : list Z :=
  flat_map (fun e => match e with EvSleep d => [d] | _ => [] end) l.

Inductive outcome (A : Type) : Type :=
| Return (a : A)
| Raise (e : exn).
Arguments Return {A} a.
Arguments Raise {A} e.

Definition M (A : Type) : Type := World -> outcome A * World.

Definition ret {A} (a : A) : M A := fun w => (Return a, w).

Definition raise {A} (e : exn) : M A := fun w => (Raise e, w).

Definition bind {A B} (m : M A) (f : A -> M B) : M B :=
  fun w =>
    match m w with
    | (Return a, w') => f a w'
    | (Raise e, w') => (Raise e, w')
    end.

(** [try: m  except Exception as e: handler e] *)
Definition try_except {A} (m : M A) (handler : exn -> M A) : M A :=
  fun w =>
    match m w with
    | (Return a, w') => (Return a, w')
    | (Raise e, w') => handler e w'
    end.

Definition emit (e : event) : M unit :=
  fun w => (Return tt, mkWorld (trace w ++ [e]) (OPENAI_API_KEY w)).

Declare Scope py_scope.
Delimit Scope py_scope with py.
Notation "x <- m ;; k" := (bind m (fun x => k))
  (at level 100, m at next level, right associativity) : py_scope.
Notation "m ;; k" := (bind m (fun _ => k))
  (at level 100, right associativity) : py_scope.
Local Open Scope py_scope.

(* ===================================================================== *)
(** ** [app/config.py]                                                     *)
(* ===================================================================== *)

(** The settings object.  [Settings] is a pydantic [BaseSettings]: every
    field can be set from the process environment or the [.env] file, so
    the properties below are stated for an arbitrary record. *)
Record Settings : Type := mkSettings {
  AZURE_OPENAI_API_KEY : string;
  AZURE_OPENAI_ENDPOINT : string;
  AZURE_OPENAI_DEPLOYMENT_NAME : string;
  AZURE_OPENAI_API_VERSION : string;
  TOUCH_BAR_WIDTH : Z;
  TOUCH_BAR_HEIGHT : Z;
  MAX_ANSWER_LENGTH : Z;
  FONT_SIZE : Z;
  BACKGROUND_COLOR : string;
  TEXT_COLOR : string;
  ACCENT_COLOR : string;
  SEARCH_TIMEOUT : Z;
  MAX_TOKENS : Z;
  TEMPERATURE : Q
}.

(** [os.getenv(name, default)] over a process environment *)
Definition getenv (environ : string -> option string) (name default : string) : string :=
  match environ name with Some v => v | None => default end.

(** The defaults of the class body: the four Azure values as
    [os.getenv] finds them under their upper-case names, every other field
    its literal.  This is what [Settings()] holds when the process
    environment and the [.env] file name no field in any other way;
    pydantic would also take any field, matched without regard to case,
    from the environment, which this function does not follow.  It serves
    for concrete configurations only; what is proved of the service is
    stated for an arbitrary [Settings]. *)
Definition default_settings (environ : string -> option string) : Settings :=
  {| AZURE_OPENAI_API_KEY := getenv environ "AZURE_OPENAI_API_KEY" "";
     AZURE_OPENAI_ENDPOINT := getenv environ "AZURE_OPENAI_ENDPOINT" "";
     AZURE_OPENAI_DEPLOYMENT_NAME := getenv environ "AZURE_OPENAI_DEPLOYMENT_NAME" "";
     AZURE_OPENAI_API_VERSION := getenv environ "AZURE_OPENAI_API_VERSION" "2024-02-15-preview";
     TOUCH_BAR_WIDTH := 1080;
     TOUCH_BAR_HEIGHT := 60;
     MAX_ANSWER_LENGTH := 200;
     FONT_SIZE := 12;
     BACKGROUND_COLOR := "#1e1e1e";
     TEXT_COLOR := "#ffffff";
     ACCENT_COLOR := "#007AFF";
     SEARCH_TIMEOUT := 30;
     MAX_TOKENS := 1000;
     TEMPERATURE := 7 # 10 |}.


(* ===================================================================== *)
(** ** The libraries the service calls                                     *)
(* ===================================================================== *)

(** A chat-completion response: the [message.content] of each choice. *)
Record ChatCompletion : Type := mkChatCompletion { choices : list (option string) }.

(** The environment of a run: which optional packages import, and how the
    remote endpoint and the library constructors answer.  The [nat] of a
    call is the number of earlier calls of the same kind, so that a mock
    with a list of side effects is [fun n => nth n ...]. *)
Record Env : Type := mkEnv {
  TENACITY_AVAILABLE : bool;
  LANGCHAIN_AVAILABLE : bool;
  (* AzureOpenAI(...): [Some e] when the constructor raises [e] *)
  AzureOpenAI_init : nat -> ClientArgs -> option exn;
  (* client.chat.completions.create(...) *)
  chat_completions_create : nat -> ClientArgs -> ChatRequest -> outcome ChatCompletion;
  (* langchain_openai.AzureChatOpenAI(...) *)
  AzureChatOpenAI_init : ChatModelArgs -> option exn;
  (* llm.invoke(messages).content *)
  llm_invoke : nat -> ChatModelArgs -> list message -> outcome string;
  (* str() of the RetryError that wraps the last failed attempt *)
  RetryError_str : exn -> string
}.

Module tenacity.

(** [wait_exponential(multiplier, min, max)], third-party code, after the
    library's definition: [multiplier * 2 ** (attempt_number - 1)] clamped
    to [[max(0, min), max]]; attempts are numbered from 1. *)
Definition wait_exponential (multiplier min max : Z) (attempt_number : nat) : Z :=
  let exp := 2 ^ (Z.of_nat attempt_number - 1) in
  let result := multiplier * exp in
  Z.max (Z.max 0 min) (Z.min result max).

(** [stop_after_attempt(n)]: stop once the attempt numbered [n] or a later
    one was made. *)
Definition stop_after_attempt (max_attempt_number attempt_number : nat) : bool :=
  (max_attempt_number <=? attempt_number)%nat.

(** The retry loop for [stop_after_attempt(n)]: call; on an exception
    either stop with a [RetryError] around it or sleep and call again.
    The loop counts the attempts still allowed after this one,
    [remaining = n - attempt_number], and stops at 0, which is when
    [stop_after_attempt n attempt_number] holds. *)
Fixpoint retrying {A} (rstr : exn -> string) (wait : nat -> Z) (f : M A)
    (remaining attempt_number : nat) : M A :=
  try_except f
    (fun e =>
       match remaining with
       | O => raise (mkExn RetryError (rstr e))
       | S remaining' =>
           (emit (EvSleep (wait attempt_number));;
            retrying rstr wait f remaining' (S attempt_number))%py
       end).

End tenacity.

(** The decorator [@retry(stop=stop_after_attempt(n), wait=wait)]: the one
    of tenacity when it imports, the do-nothing stand-in of
    [azure_service.py] otherwise. *)
Definition retry {A} (env : Env) (n : nat) (wait : nat -> Z) (f : M A) : M A :=
  if TENACITY_AVAILABLE env
  then tenacity.retrying (RetryError_str env) wait f (n - 1) 1
  else f.

Section Libraries.
Variable env : Env.

(** [AzureOpenAI(...)] *)
Definition AzureOpenAI (args : ClientArgs) : M ClientArgs :=
  fun w =>
    let w' := mkWorld (trace w ++ [EvAzureOpenAI args]) (OPENAI_API_KEY w) in
    match AzureOpenAI_init env (count is_construction w) args with
    | None => (Return args, w')
    | Some e => (Raise e, w')
    end.

(** [client.chat.completions.create(...)] *)
Definition create (client : ClientArgs) (req : ChatRequest) : M ChatCompletion :=
  fun w =>
    (chat_completions_create env (count is_create w) client req,
     mkWorld (trace w ++ [EvCreate client req]) (OPENAI_API_KEY w)).

(** [AzureChatOpenAI(...)]: the LangChain class, or the empty stand-in class
    of [azure_service.py], which accepts no argument. *)
Definition AzureChatOpenAI (args : ChatModelArgs) : M Client :=
  fun w =>
    let w' := mkWorld (trace w ++ [EvAzureChatOpenAI args]) (OPENAI_API_KEY w) in
    if LANGCHAIN_AVAILABLE env then
      match AzureChatOpenAI_init env args with
      | None => (Return (LangChainModel args), w')
      | Some e => (Raise e, w')
      end
    else (Raise (mkExn TypeError "AzureChatOpenAI() takes no arguments"), w').

(** [llm.invoke(messages).content] *)
Definition invoke (llm : ChatModelArgs) (msgs : list message) : M string :=
  fun w =>
    (llm_invoke env (count is_invoke w) llm msgs,
     mkWorld (trace w ++ [EvInvoke llm msgs]) (OPENAI_API_KEY w)).

(** [response.choices[0].message.content] *)
Definition first_content (response : ChatCompletion) : M (option string) :=
  match choices response with
  | c :: _ => ret c
  | [] => raise (mkExn (OtherError "IndexError") "list index out of range")
  end.

End Libraries.

(* ===================================================================== *)
(** ** [app/azure_service.py]: class [AzureOpenAIService]                  *)
(* ===================================================================== *)

(** [base_endpoint_pattern]: the capturing group
    [(https://[^/]+\.(?:openai|cognitive)\.azure\.com)], and after it an
    optional non-capturing group, a slash followed by any text on the
    line. *)
Definition base_endpoint_group : Re.re :=
  Re.Seq (Re.Lit "https://")
    (Re.Seq (Re.Plus (Re.Not "/"))
       (Re.Seq (Re.Lit ".")
          (Re.Seq (Re.Alt (Re.Lit "openai") (Re.Lit "cognitive"))
             (Re.Lit ".azure.com")))).

Definition base_endpoint_tail : Re.re :=
  Re.Opt (Re.Seq (Re.Lit "/") (Re.Star Re.Dot)).

(** The clean-up of the endpoint URL inside [get_llm]: group 1 of the
    pattern when it matches, else the text before ["/deployments/"], else
    the endpoint without trailing slashes, else the endpoint. *)
Definition extract_base_endpoint (endpoint : string) : string :=
  match Re.match_group1 base_endpoint_group base_endpoint_tail endpoint with
  | Some group1 => group1
  | None =>
      if PyStr.contains "/deployments/" endpoint
      then PyStr.split_head "/deployments/" endpoint
      else if PyStr.endswith "/" endpoint
           then PyStr.rstrip "/" endpoint
           else endpoint
  end.

Definition system_prompt : string :=
"You are an expert coding interview assistant. Provide concise, 
        practical answers to coding interview questions. Focus on:
        1. Key concepts and approaches
        2. Time and space complexity
        3. Code examples when helpful
        4. Common pitfalls to avoid
        
        Keep answers brief and suitable for display on a small screen (max 200 characters).
        If the answer is longer, provide the most essential information first.".

Section AzureOpenAIService.
Variable env : Env.
Variable settings : Settings.

(** The arguments both [AzureOpenAI(...)] calls of the file pass. *)
Definition client_args (request_timeout : Q) : ClientArgs :=
  {| api_version := AZURE_OPENAI_API_VERSION settings;
     azure_endpoint := AZURE_OPENAI_ENDPOINT settings;
     api_key := AZURE_OPENAI_API_KEY settings;
     timeout := request_timeout |}.

(** The connectivity test request of [_create_azure_llm_with_retry]. *)
Definition test_request (request_timeout : Q) : ChatRequest :=
  {| req_messages :=
       [ mkMessage "system" "You are a helpful assistant.";
         mkMessage "user" "Hello, are you working?" ];
     req_max_tokens := 5;
     req_temperature := 7 # 10;
     req_top_p := 1 # 1;
     req_model := AZURE_OPENAI_DEPLOYMENT_NAME settings;
     req_timeout := request_timeout |}.

(** The arguments of the [AzureChatOpenAI(...)] call that builds the
    model handed out. *)
Definition chat_model_args (timeout : Q) : ChatModelArgs :=
  let deployment_name := AZURE_OPENAI_DEPLOYMENT_NAME settings in
  {| azure_deployment := deployment_name;
     openai_api_version := AZURE_OPENAI_API_VERSION settings;
     llm_azure_endpoint := AZURE_OPENAI_ENDPOINT settings;
     llm_api_key := AZURE_OPENAI_API_KEY settings;
     llm_temperature := 7 # 10;
     request_timeout := timeout;
     llm_model := "azure/" ++ deployment_name |}.

(** The body of [_create_azure_llm_with_retry], one attempt: build the raw
    client, make the test call, build the LangChain model.  Both handlers
    re-raise.  The parameter [endpoint] is not read. *)
Definition create_azure_llm_attempt (endpoint : string) : M (option Client) :=
  try_except
    (let request_timeout := 60 # 1 in
     client <- AzureOpenAI env (client_args request_timeout);;
     try_except
       (response <- create env client (test_request request_timeout);;
        llm <- AzureChatOpenAI env (chat_model_args request_timeout);;
        ret (Some llm))
       (fun e => raise e))
    (fun e => raise e).

(** [_create_azure_llm_with_retry] as decorated:
    [@retry(stop=stop_after_attempt(3),
            wait=wait_exponential(multiplier=1, min=4, max=10))]. *)
Definition _create_azure_llm_with_retry (endpoint : string) : M (option Client) :=
  retry env 3 (tenacity.wait_exponential 1 4 10) (create_azure_llm_attempt endpoint).

Definition required_vars : list (string * string) :=
  [ ("AZURE_OPENAI_API_KEY", AZURE_OPENAI_API_KEY settings);
    ("AZURE_OPENAI_ENDPOINT", AZURE_OPENAI_ENDPOINT settings);
    ("AZURE_OPENAI_DEPLOYMENT_NAME", AZURE_OPENAI_DEPLOYMENT_NAME settings);
    ("AZURE_OPENAI_API_VERSION", AZURE_OPENAI_API_VERSION settings) ].

Definition missing_vars : list string :=
  map fst (filter (fun kv => negb (PyStr.truthy (snd kv))) required_vars).

(** [del os.environ["OPENAI_API_KEY"]] when it holds the Azure key. *)
Definition remove_openai_api_key : M unit :=
  fun w =>
    match OPENAI_API_KEY w with
    | Some v =>
        if String.eqb v (AZURE_OPENAI_API_KEY settings)
        then (Return tt, mkWorld (trace w) None)
        else (Return tt, w)
    | None => (Return tt, w)
    end.

Definition get_llm (fallback_to_openai : bool) : M (option Client) :=
  try_except
    (match missing_vars with
     | _ :: _ =>
         let error_msg :=
           "Missing required Azure OpenAI configuration values: "
           ++ PyStr.join ", " missing_vars in
         raise (mkExn ValueError error_msg)
     | [] =>
         remove_openai_api_key;;
         let endpoint := extract_base_endpoint (AZURE_OPENAI_ENDPOINT settings) in
         try_except
           (llm <- _create_azure_llm_with_retry endpoint;;
            match llm with
            | None =>
                raise (mkExn RuntimeError
                  "Failed to create Azure OpenAI client after retries, returned None unexpectedly.")
            | Some _ => ret llm
            end)
           (fun e =>
              if isinstance e RetryError then
                raise (mkExn RuntimeError
                  ("Failed to create Azure OpenAI client after retries: " ++ exn_str e))
              else
                raise (mkExn RuntimeError
                  ("Failed during Azure LLM creation or verification: " ++ exn_str e)))
     end)
    (fun e =>
       if isinstance e ValueError then raise e
       else raise (mkExn RuntimeError
              ("Unexpected error initializing AzureChatOpenAI: " ++ exn_str e))).

(** The request [generate_completion] sends through a raw client. *)
Definition completion_request (messages : list message) (max_tokens : Z)
    (temperature top_p : Q) (request_timeout : Q) : ChatRequest :=
  {| req_messages := messages;
     req_max_tokens := max_tokens;
     req_temperature := temperature;
     req_top_p := top_p;
     req_model := AZURE_OPENAI_DEPLOYMENT_NAME settings;
     req_timeout := request_timeout |}.

(** [response = client.chat.completions.create(...)] followed by
    [return response.choices[0].message.content]. *)
Definition raw_chat_completion (client : ClientArgs) (request : ChatRequest)
  : M (option string) :=
  response <- create env client request;;
  first_content response.

(** The [try] block of [generate_completion], on a class whose [get_llm] is
    [cls_get_llm] (the method is looked up on [cls], and the tests patch
    it). *)
Definition generate_completion_try (cls_get_llm : bool -> M (option Client))
    (messages : list message) (max_tokens : Z) (temperature top_p : Q)
  : M (option string) :=
  let request_timeout := 60 # 1 in
  client <- cls_get_llm false;;
  match client with
  | None => ret None
  | Some (LangChainModel llm) =>
      try_except
        (response_content <- invoke env llm messages;;
         ret (Some response_content))
        (fun e =>
           raw_client <- AzureOpenAI env (client_args request_timeout);;
           raw_chat_completion raw_client
             (completion_request messages max_tokens temperature top_p request_timeout))
  | Some (RawClient raw) =>
      raw_chat_completion raw
        (completion_request messages max_tokens temperature top_p request_timeout)
  end.

(** [generate_completion]: the [try] block, and [return None] on any
    exception. *)
Definition generate_completion_on (cls_get_llm : bool -> M (option Client))
    (messages : list message) (max_tokens : Z) (temperature top_p : Q)
  : M (option string) :=
  try_except
    (generate_completion_try cls_get_llm messages max_tokens temperature top_p)
    (fun e => ret None).

Definition generate_completion : list message -> Z -> Q -> Q -> M (option string) :=
  generate_completion_on get_llm.

(** The two messages [get_coding_answer] sends. *)
Definition coding_messages (question : string) : list message :=
  [ mkMessage "system" system_prompt;
    mkMessage "user" ("Answer this coding interview question: " ++ question) ].

(** [get_coding_answer], on a class whose [generate_completion] is
    [cls_generate_completion]; [top_p] takes its default 1.0. *)
Definition get_coding_answer_on
    (cls_generate_completion : list message -> Z -> Q -> Q -> M (option string))
    (question : string) : M string :=
  let messages := coding_messages question in
  try_except
    (response <- cls_generate_completion messages
                   (MAX_TOKENS settings) (TEMPERATURE settings) (1 # 1);;
     match response with
     | Some text =>
         if PyStr.truthy text then
           if PyStr.len text >? MAX_ANSWER_LENGTH settings
           then ret (PyStr.slice_to (MAX_ANSWER_LENGTH settings - 3) text ++ "...")
           else ret text
         else ret "Unable to generate answer. Please try again."
     | None => ret "Unable to generate answer. Please try again."
     end)
    (fun e => ret "Error: Unable to connect to AI service.").

Definition get_coding_answer : string -> M string :=
  get_coding_answer_on generate_completion.

End AzureOpenAIService.

(** The completion call [get_coding_answer] makes for a question: the
    [await cls.generate_completion(messages=..., max_tokens=...,
    temperature=...)] of its [try] block. *)
Definition completion_call (settings : Settings)
    (cls_generate_completion : list message -> Z -> Q -> Q -> M (option string))
    (question : string) : M (option string) :=
  cls_generate_completion (coding_messages question)
    (MAX_TOKENS settings) (TEMPERATURE settings) (1 # 1).

(** A world in which nothing has happened yet. *)
Definition initial_world (openai_api_key : option string) : World :=
  mkWorld [] openai_api_key.

(* ===================================================================== *)
(** ** Fixtures: mocks, configurations and environments of the examples    *)
(* ===================================================================== *)

(** [generate_completion] patched to return a value, as the tests do. *)
Definition mock_returns (r : option string)
  : list message -> Z -> Q -> Q -> M (option string) :=
  fun _ _ _ _ => ret r.

(** [generate_completion] patched with [side_effect = e]. *)
Definition mock_raises (e : exn)
  : list message -> Z -> Q -> Q -> M (option string) :=
  fun _ _ _ _ => raise e.

Definition no_environ : string -> option string := fun _ => None.

(** A process environment with the four Azure values set. *)
Definition azure_environ (endpoint : string) : string -> option string :=
  fun name =>
    if String.eqb name "AZURE_OPENAI_API_KEY" then Some "test_key"
    else if String.eqb name "AZURE_OPENAI_ENDPOINT" then Some endpoint
    else if String.eqb name "AZURE_OPENAI_DEPLOYMENT_NAME" then Some "test_deployment"
    else if String.eqb name "AZURE_OPENAI_API_VERSION" then Some "2024-02-15-preview"
    else None.

Definition test_settings : Settings :=
  default_settings (azure_environ "https://test.openai.azure.com/").

(** The default settings with another [MAX_ANSWER_LENGTH]. *)
Definition with_max_answer_length (n : Z) (s : Settings) : Settings :=
  {| AZURE_OPENAI_API_KEY := AZURE_OPENAI_API_KEY s;
     AZURE_OPENAI_ENDPOINT := AZURE_OPENAI_ENDPOINT s;
     AZURE_OPENAI_DEPLOYMENT_NAME := AZURE_OPENAI_DEPLOYMENT_NAME s;
     AZURE_OPENAI_API_VERSION := AZURE_OPENAI_API_VERSION s;
     TOUCH_BAR_WIDTH := TOUCH_BAR_WIDTH s;
     TOUCH_BAR_HEIGHT := TOUCH_BAR_HEIGHT s;
     MAX_ANSWER_LENGTH := n;
     FONT_SIZE := FONT_SIZE s;
     BACKGROUND_COLOR := BACKGROUND_COLOR s;
     TEXT_COLOR := TEXT_COLOR s;
     ACCENT_COLOR := ACCENT_COLOR s;
     SEARCH_TIMEOUT := SEARCH_TIMEOUT s;
     MAX_TOKENS := MAX_TOKENS s;
     TEMPERATURE := TEMPERATURE s |}.

Definition connection_error : exn :=
  mkExn (OtherError "APIConnectionError") "Connection error.".

Definition render_retry_error (last : exn) : string :=
  "RetryError[" ++ exn_str last ++ "]".

(** An endpoint whose first [failures] chat-completion calls raise and
    whose later ones answer [text]; LangChain imports, tenacity as given. *)
Definition flaky_endpoint (tenacity_available : bool) (failures : nat) (text : string) : Env :=
  {| TENACITY_AVAILABLE := tenacity_available;
     LANGCHAIN_AVAILABLE := true;
     AzureOpenAI_init := fun _ _ => None;
     chat_completions_create := fun n _ _ =>
       if (n <? failures)%nat then Raise connection_error
       else Return (mkChatCompletion [Some text]);
     AzureChatOpenAI_init := fun _ => None;
     llm_invoke := fun _ _ _ => Return text;
     RetryError_str := render_retry_error |}.

(** An endpoint that refuses every request. *)
Definition dead_endpoint (tenacity_available : bool) : Env :=
  {| TENACITY_AVAILABLE := tenacity_available;
     LANGCHAIN_AVAILABLE := true;
     AzureOpenAI_init := fun _ _ => None;
     chat_completions_create := fun _ _ _ => Raise connection_error;
     AzureChatOpenAI_init := fun _ => None;
     llm_invoke := fun _ _ _ => Raise connection_error;
     RetryError_str := render_retry_error |}.


(** The events a run added to the trace. *)
Definition new_events (before after : World) : list event :=
  skipn (List.length (trace before)) (trace after).

(** The number of attempts of a run: one [AzureOpenAI(...)] each. *)
Definition attempts (l : list event) : nat := List.length (filter is_construction l).

(** The number of outbound requests of a run. *)
Definition outbound_calls (l : list event) : nat := List.length (filter is_outbound l).

(** The world after further events. *)
Definition after (w : World) (l : list event) : World :=
  mkWorld (trace w ++ l) (OPENAI_API_KEY w).

(** All four required configuration values are set. *)
Definition configured (s : Settings) : Prop :=
  AZURE_OPENAI_API_KEY s <> ""
  /\ AZURE_OPENAI_ENDPOINT s <> ""
  /\ AZURE_OPENAI_DEPLOYMENT_NAME s <> ""
  /\ AZURE_OPENAI_API_VERSION s <> "".


(** The endpoint each object of a run was built with or called on. *)
Definition endpoints_used (l : list event) : list string :=
  flat_map (fun e =>
              match e with
              | EvAzureOpenAI a => [azure_endpoint a]
              | EvCreate c _ => [azure_endpoint c]
              | EvAzureChatOpenAI a => [llm_azure_endpoint a]
              | EvInvoke a _ => [llm_azure_endpoint a]
              | EvSleep _ => []
              end) l.

(** The events of an attempt whose test call raises. *)
Definition failed_attempt_events (s : Settings) : list event :=
  [ EvAzureOpenAI (client_args s (60 # 1));
    EvCreate (client_args s (60 # 1)) (test_request s (60 # 1)) ].

(** The events of an attempt that succeeds. *)
Definition successful_attempt_events (s : Settings) : list event :=
  [ EvAzureOpenAI (client_args s (60 # 1));
    EvCreate (client_args s (60 # 1)) (test_request s (60 # 1));
    EvAzureChatOpenAI (chat_model_args s (60 # 1)) ].

(** An endpoint given with the path of a deployment. *)
Definition deep_endpoint : string :=
  "https://myresource.openai.azure.com/openai/deployments/gpt-4/chat/completions".

(* ===================================================================== *)
(** ** The callers of the service                                          *)
(* ===================================================================== *)

(** [all(p(c) for c in s)] *)
Fixpoint all_chars (p : ascii -> bool) (s : string) : bool :=
  match s with
  | EmptyString => true
  | String c s' => p c && all_chars p s'
  end.

(** a character other than the slash: the class [[^/]] of the pattern *)
Definition not_slash (c : ascii) : bool := Re.cls_matches (Re.Not "/") c.

(** [str(n)] for an integer *)
Definition str_of_int (n : Z) : string := NilZero.string_of_int (Z.to_int n).

(** truth value of [os.getenv(name)]: set and not empty *)
Definition env_truthy (environ : string -> option string) (name : string) : bool :=
  match environ name with
  | Some v => PyStr.truthy v
  | None => false
  end.

Module main.

(** [check_environment] of [main.py] and [main_cli.py]: the names of the
    required variables that are unset or empty, and whether there is none. *)
Definition required_vars : list string :=
  [ "AZURE_OPENAI_API_KEY"; "AZURE_OPENAI_ENDPOINT"; "AZURE_OPENAI_DEPLOYMENT_NAME" ].

Definition missing_vars (environ : string -> option string) : list string :=
  filter (fun var => negb (env_truthy environ var)) required_vars.

Definition check_environment (environ : string -> option string) : bool :=
  match missing_vars environ with
  | _ :: _ => false
  | [] => true
  end.

(** [test_azure_connection] of [main.py] and [main_cli.py]. *)
Definition test_azure_connection (env : Env) (settings : Settings) : M bool :=
  try_except
    (_ <- get_llm env settings false;;
     ret true)
    (fun e => ret false).

End main.

(** [_perform_search] of [TouchBarUI], [TouchBarSearchWindow] and the
    native integrations, on a service whose [get_coding_answer] is
    [cls_get_coding_answer]. *)
Definition _perform_search (cls_get_coding_answer : string -> M string)
    (question : string) : M string :=
  try_except
    (answer <- cls_get_coding_answer question;;
     ret answer)
    (fun e => ret ("Error: Unable to get answer - " ++ exn_str e)).

Module TouchBarCLI.

Definition truncation_warning : string :=
  "⚠️  Answer was truncated for Touch Bar display".

(** [TouchBarCLI.get_answer] of [main_cli.py]: the value returned and the
    lines printed, in order ([print] itself is taken not to fail). *)
Definition get_answer (settings : Settings)
    (cls_get_coding_answer : string -> M string) (question : string)
  : M (string * list string) :=
  let printed :=
    [ String Re.newline "🔍 Question: " ++ question; PyStr.repeat "-" 60 ] in
  try_except
    (answer <- cls_get_coding_answer question;;
     let printed :=
       List.app printed
         [ "💡 Answer: " ++ answer;
           "📏 Length: " ++ str_of_int (PyStr.len answer) ++ " characters" ] in
     if PyStr.len answer >? MAX_ANSWER_LENGTH settings
     then ret (answer, List.app printed [truncation_warning])
     else ret (answer, printed))
    (fun e =>
       let error_msg := "❌ Error: " ++ exn_str e in
       ret (error_msg, List.app printed [error_msg])).

End TouchBarCLI.

(** An environment in which the model's [invoke] raises while the raw
    client is answered [text]. *)
Definition model_down_endpoint (text : string) : Env :=
  {| TENACITY_AVAILABLE := true;
     LANGCHAIN_AVAILABLE := true;
     AzureOpenAI_init := fun _ _ => None;
     chat_completions_create := fun _ _ _ => Return (mkChatCompletion [Some text]);
     AzureChatOpenAI_init := fun _ => None;
     llm_invoke := fun _ _ _ => Raise (mkExn (OtherError "Exception") "LangChain failed");
     RetryError_str := render_retry_error |}.

(** [get_llm] patched to return a value, as the tests do. *)
Definition mock_get_llm (client : option Client) : bool -> M (option Client) :=
  fun _ => ret client.

(** What [get_coding_answer] makes of the value its completion call
    returned: lines 320 to 326 of [azure_service.py]. *)
Definition answer_of_response (settings : Settings) (response : option string) : string :=
  match response with
  | Some text =>
      if PyStr.truthy text then
        if PyStr.len text >? MAX_ANSWER_LENGTH settings
        then PyStr.slice_to (MAX_ANSWER_LENGTH settings - 3) text ++ "..."
        else text
      else "Unable to generate answer. Please try again."
  | None => "Unable to generate answer. Please try again."
  end.

(** The events of one attempt: it begins with the construction of the raw
    client, and holds no other construction and no sleep. *)
Definition attempt_events (s : Settings) (a : list event) : Prop :=
  exists rest,
    a = EvAzureOpenAI (client_args s (60 # 1)) :: rest
    /\ attempts rest = 0%nat
    /\ sleeps rest = [].

(** The world in which [get_llm] starts its attempts: after the clean-up of
    [os.environ]. *)
Definition cleaned (s : Settings) (w : World) : World :=
  snd (remove_openai_api_key s w).

(** An endpoint that answers the first request, the connectivity test, and
    refuses every later one, through the model and through the raw client. *)
Definition request_down_endpoint : Env :=
  {| TENACITY_AVAILABLE := true;
     LANGCHAIN_AVAILABLE := true;
     AzureOpenAI_init := fun _ _ => None;
     chat_completions_create := fun n _ _ =>
       if (n <? 1)%nat then Return (mkChatCompletion [Some "Hi"])
       else Raise connection_error;
     AzureChatOpenAI_init := fun _ => None;
     llm_invoke := fun _ _ _ => Raise connection_error;
     RetryError_str := render_retry_error |}.

(** A process environment that sets the API key, the endpoint and the
    deployment name, and not the API version. *)
Definition environ_without_api_version : string -> option string :=
  fun name =>
    if String.eqb name "AZURE_OPENAI_API_KEY" then Some "test_key"
    else if String.eqb name "AZURE_OPENAI_ENDPOINT" then Some "https://test.openai.azure.com/"
    else if String.eqb name "AZURE_OPENAI_DEPLOYMENT_NAME" then Some "test_deployment"
    else None.

(* ===================================================================== *)
(** ** Facts about Python strings                                          *)
(* ===================================================================== *)

Module PyStrFacts.
Import PyStr.

Lemma length_take (n : nat) (s : string) :
  String.length (take n s) = Nat.min n (String.length s).
Proof.
  revert s; induction n as [|n IH]; intros [|c s]; simpl; auto.
Qed.

Lemma length_append (a b : string) :
  String.length (a ++ b) = (String.length a + String.length b)%nat.
Proof.
  induction a as [|c a IH]; simpl; auto.
Qed.

Lemma take_app_le (n : nat) (a b : string) :
  (n <= String.length a)%nat -> take n (a ++ b) = take n a.
Proof.
  revert a; induction n as [|n IH]; intros [|c a] H; simpl in *; auto.
  - lia.
  - f_equal. apply IH. lia.
Qed.

Lemma take_all (n : nat) (s : string) :
  (String.length s <= n)%nat -> take n s = s.
Proof.
  revert s; induction n as [|n IH]; intros [|c s] H; simpl in *; auto.
  - lia.
  - f_equal. apply IH. lia.
Qed.

Lemma take_idem (n : nat) (s : string) : take n (take n s) = take n s.
Proof.
  revert s; induction n as [|n IH]; intros [|c s]; simpl; auto.
  f_equal. apply IH.
Qed.

Lemma drop_app_length (a b : string) : drop (String.length a) (a ++ b) = b.
Proof.
  induction a as [|c a IH]; simpl; auto.
Qed.

Lemma endswith_app (a p : string) : endswith p (a ++ p) = true.
Proof.
  unfold endswith. rewrite length_append.
  replace (String.length a + String.length p - String.length p)%nat
    with (String.length a) by lia.
  rewrite drop_app_length, String.eqb_refl.
  rewrite andb_true_r. apply Nat.leb_le. lia.
Qed.

Lemma truthy_iff (s : string) : truthy s = true <-> s <> "".
Proof.
  destruct s; simpl; split; congruence.
Qed.

Lemma truthy_len (s : string) : truthy s = true <-> 0 < len s.
Proof.
  unfold len. destruct s; simpl; split; intros; try lia; try congruence.
Qed.

(** a slice with a stop inside the string has that many characters *)
Lemma len_slice_to (k : Z) (s : string) :
  0 <= k <= len s -> len (slice_to k s) = k.
Proof.
  intros H. unfold slice_to, len in *.
  destruct (k <? 0) eqn:Hk; [apply Z.ltb_lt in Hk; lia|].
  rewrite length_take. rewrite Z.min_l by lia. lia.
Qed.

Lemma slice_to_nonneg (k : Z) (s : string) :
  0 <= k -> slice_to k s = take (Z.to_nat k) s.
Proof.
  intros H. unfold slice_to, len.
  destruct (k <? 0) eqn:Hk; [apply Z.ltb_lt in Hk; lia|].
  destruct (Z.le_gt_cases k (Z.of_nat (String.length s))) as [Hle|Hgt].
  - rewrite Z.min_l by lia. reflexivity.
  - rewrite Z.min_r by lia. rewrite Nat2Z.id.
    rewrite !take_all; auto; lia.
Qed.

(** Python: [(s[:k] + t)[:k] == s[:k]] for [0 <= k <= len(s)] *)
Lemma slice_to_app_slice (k : Z) (s t : string) :
  0 <= k <= len s -> slice_to k (slice_to k s ++ t) = slice_to k s.
Proof.
  intros H. unfold len in H. rewrite !slice_to_nonneg by lia.
  rewrite take_app_le.
  - apply take_idem.
  - rewrite length_take. lia.
Qed.

End PyStrFacts.

(* ===================================================================== *)
(** ** [get_coding_answer]: what reaches the front-end                     *)
(* ===================================================================== *)

Section Answer.
Variable settings : Settings.
Variable gc : list message -> Z -> Q -> Q -> M (option string).

(** One equation per way the completion call can end. *)
Lemma answer_of_text (question text : string) (w w' : World) :
  completion_call settings gc question w = (Return (Some text), w') ->
  get_coding_answer_on settings gc question w =
    (Return
       (if PyStr.truthy text then
          if PyStr.len text >? MAX_ANSWER_LENGTH settings
          then PyStr.slice_to (MAX_ANSWER_LENGTH settings - 3) text ++ "..."
          else text
        else "Unable to generate answer. Please try again."), w').
Proof.
  unfold completion_call, get_coding_answer_on, try_except, bind. intros ->.
  destruct (PyStr.truthy text); [destruct (_ >? _)|]; reflexivity.
Qed.

Lemma answer_of_none (question : string) (w w' : World) :
  completion_call settings gc question w = (Return None, w') ->
  get_coding_answer_on settings gc question w = (Return "Unable to generate answer. Please try again.", w').
Proof.
  unfold completion_call, get_coding_answer_on, try_except, bind. intros ->. reflexivity.
Qed.

Lemma answer_of_raise (question : string) (e : exn) (w w' : World) :
  completion_call settings gc question w = (Raise e, w') ->
  get_coding_answer_on settings gc question w = (Return "Error: Unable to connect to AI service.", w').
Proof.
  unfold completion_call, get_coding_answer_on, try_except, bind. intros ->. reflexivity.
Qed.

(** The effects of [get_coding_answer] are those of its completion call. *)
Lemma answer_of_world (question : string) (w : World) :
  snd (get_coding_answer_on settings gc question w) = snd (completion_call settings gc question w).
Proof.
  destruct (completion_call settings gc question w) as [[[text|]|e] w'] eqn:E.
  - rewrite (answer_of_text _ _ _ _ E). reflexivity.
  - rewrite (answer_of_none _ _ _ E). reflexivity.
  - rewrite (answer_of_raise _ _ _ _ E). reflexivity.
Qed.

(** A truncated text is never empty, whatever the budget. *)
Lemma truncated_nonempty (k : Z) (text : string) : PyStr.slice_to k text ++ "..." <> "".
Proof.
  intros H. apply (f_equal String.length) in H.
  rewrite PyStrFacts.length_append in H. simpl in H. lia.
Qed.

(** The answer is always returned, never raised, and never empty. *)
Lemma answer_of_total (question : string) (w : World) :
  exists answer w',
    get_coding_answer_on settings gc question w = (Return answer, w')
    /\ answer <> ""
    /\ ((exists text,
           completion_call settings gc question w = (Return (Some text), w')
           /\ (answer = text
               \/ answer = PyStr.slice_to (MAX_ANSWER_LENGTH settings - 3) text ++ "..."))
        \/ answer = "Unable to generate answer. Please try again."
        \/ answer = "Error: Unable to connect to AI service.").
Proof.
  destruct (completion_call settings gc question w) as [[[text|]|e] w'] eqn:E.
  - rewrite (answer_of_text _ _ _ _ E).
    destruct (PyStr.truthy text) eqn:T.
    + destruct (PyStr.len text >? MAX_ANSWER_LENGTH settings).
      * eexists _, w'. split; [reflexivity|]. split; [apply truncated_nonempty|].
        left. exists text. auto.
      * exists text, w'. split; [reflexivity|]. split; [now apply PyStrFacts.truthy_iff|].
        left. exists text. auto.
    + eexists _, w'. split; [reflexivity|]. split; [discriminate|]. right. left. reflexivity.
  - rewrite (answer_of_none _ _ _ E).
    eexists _, w'. split; [reflexivity|]. split; [discriminate|]. right. left. reflexivity.
  - rewrite (answer_of_raise _ _ _ _ E).
    eexists _, w'. split; [reflexivity|]. split; [discriminate|]. right. right. reflexivity.
Qed.

End Answer.

(** C1 (amended). For every question and every configuration whose
    [MAX_ANSWER_LENGTH] is at least 3 (the default is 200): if the
    completion call succeeds with a text longer than [MAX_ANSWER_LENGTH],
    [get_coding_answer] returns a string of exactly [MAX_ANSWER_LENGTH]
    characters that ends with ["..."] and whose first
    [MAX_ANSWER_LENGTH - 3] characters are those of the text. *)
Theorem truncated_answer (s : Settings)
    (gc : list message -> Z -> Q -> Q -> M (option string))
    (question text : string) (w w' : World) :
  3 <= MAX_ANSWER_LENGTH s ->
  completion_call s gc question w = (Return (Some text), w') ->
  PyStr.len text > MAX_ANSWER_LENGTH s ->
  exists answer,
    get_coding_answer_on s gc question w = (Return answer, w')
    /\ PyStr.len answer = MAX_ANSWER_LENGTH s
    /\ PyStr.endswith "..." answer = true
    /\ PyStr.slice_to (MAX_ANSWER_LENGTH s - 3) answer
       = PyStr.slice_to (MAX_ANSWER_LENGTH s - 3) text.
Proof.
  intros Hmax Hcall Hlen.
  rewrite (answer_of_text _ _ _ _ _ _ Hcall).
  assert (T : PyStr.truthy text = true) by (apply PyStrFacts.truthy_len; lia).
  assert (G : (PyStr.len text >? MAX_ANSWER_LENGTH s) = true) by (apply Z.gtb_lt; lia).
  rewrite T, G. eexists. split; [reflexivity|].
  split; [|split].
  - unfold PyStr.len at 1. rewrite PyStrFacts.length_append, Nat2Z.inj_add.
    fold (PyStr.len (PyStr.slice_to (MAX_ANSWER_LENGTH s - 3) text)).
    rewrite PyStrFacts.len_slice_to by lia. simpl. lia.
  - apply PyStrFacts.endswith_app.
  - apply PyStrFacts.slice_to_app_slice. lia.
Qed.

(** The long-response test: 300 times ["A"] under the test settings. *)
Lemma truncated_answer_witness :
  exists answer,
    get_coding_answer_on test_settings (mock_returns (Some (PyStr.repeat "A" 300)))
      "Test question" (initial_world None) = (Return answer, initial_world None)
    /\ PyStr.len answer = MAX_ANSWER_LENGTH test_settings
    /\ PyStr.endswith "..." answer = true
    /\ PyStr.slice_to (MAX_ANSWER_LENGTH test_settings - 3) answer
       = PyStr.slice_to (MAX_ANSWER_LENGTH test_settings - 3) (PyStr.repeat "A" 300).
Proof.
  apply (truncated_answer test_settings (mock_returns (Some (PyStr.repeat "A" 300)))
           "Test question" (PyStr.repeat "A" 300) (initial_world None) (initial_world None)).
  - simpl. lia.
  - reflexivity.
  - vm_compute. reflexivity.
Defined.

(** C1 as stated fails for a budget below 3: with [MAX_ANSWER_LENGTH = 2]
    and the text ["abcd"] the slice stop is -1, and the answer
    ["abc..."] has six characters, not two. *)
Lemma truncation_overflows_small_budget :
  let s := with_max_answer_length 2 test_settings in
  PyStr.len "abcd" > MAX_ANSWER_LENGTH s
  /\ get_coding_answer_on s (mock_returns (Some "abcd")) "q" (initial_world None)
     = (Return "abc...", initial_world None)
  /\ PyStr.len "abc..." <> MAX_ANSWER_LENGTH s.
Proof.
  split; [|split].
  - vm_compute. reflexivity.
  - vm_compute. reflexivity.
  - vm_compute. discriminate.
Qed.

(** C2 (amended). If the completion call succeeds with a non-empty text of
    at most [MAX_ANSWER_LENGTH] characters, [get_coding_answer] returns
    exactly that text; for the empty text it returns the fixed string
    ["Unable to generate answer. Please try again."]. *)
Theorem short_answer_unmodified (s : Settings)
    (gc : list message -> Z -> Q -> Q -> M (option string))
    (question text : string) (w w' : World) :
  completion_call s gc question w = (Return (Some text), w') ->
  PyStr.len text <= MAX_ANSWER_LENGTH s ->
  (text <> "" -> get_coding_answer_on s gc question w = (Return text, w'))
  /\ (text = "" ->
      get_coding_answer_on s gc question w
      = (Return "Unable to generate answer. Please try again.", w')).
Proof.
  intros Hcall Hlen.
  rewrite (answer_of_text _ _ _ _ _ _ Hcall).
  split.
  - intros Hne. apply PyStrFacts.truthy_iff in Hne. rewrite Hne.
    replace (PyStr.len text >? MAX_ANSWER_LENGTH s) with false; [reflexivity|].
    symmetry. rewrite Z.gtb_ltb. apply Z.ltb_ge. exact Hlen.
  - intros ->. reflexivity.
Qed.

(** The success test of the suite: a short answer comes back as it is. *)
Lemma short_answer_unmodified_witness :
  ("O(log n)" <> "" ->
   get_coding_answer_on test_settings (mock_returns (Some "O(log n)"))
     "What is the time complexity of binary search?" (initial_world None)
   = (Return "O(log n)", initial_world None))
  /\ ("O(log n)" = "" ->
      get_coding_answer_on test_settings (mock_returns (Some "O(log n)"))
        "What is the time complexity of binary search?" (initial_world None)
      = (Return "Unable to generate answer. Please try again.", initial_world None)).
Proof.
  apply (short_answer_unmodified test_settings (mock_returns (Some "O(log n)"))
           "What is the time complexity of binary search?" "O(log n)"
           (initial_world None) (initial_world None)).
  - reflexivity.
  - vm_compute. discriminate.
Defined.

(** C2 as stated fails for the empty text: its length 0 is within the
    budget, yet the answer is the fixed message, not the empty text. *)
Lemma empty_text_is_replaced :
  PyStr.len "" <= MAX_ANSWER_LENGTH test_settings
  /\ get_coding_answer_on test_settings (mock_returns (Some "")) "q" (initial_world None)
     = (Return "Unable to generate answer. Please try again.", initial_world None)
  /\ "Unable to generate answer. Please try again." <> "".
Proof.
  split; [|split].
  - vm_compute. discriminate.
  - reflexivity.
  - discriminate.
Qed.

(** C3. For every question, the empty one included, every configuration
    and every behaviour of the completion call, [get_coding_answer] returns
    (it does not raise) a non-empty string: the completion text, its
    truncation, or one of the two fixed messages.  The same holds of the
    unpatched service in every environment. *)
Theorem answer_always_a_nonempty_string :
  (forall (s : Settings) (gc : list message -> Z -> Q -> Q -> M (option string))
          (question : string) (w : World),
      exists answer w',
        get_coding_answer_on s gc question w = (Return answer, w')
        /\ answer <> ""
        /\ ((exists text,
               completion_call s gc question w = (Return (Some text), w')
               /\ (answer = text
                   \/ answer = PyStr.slice_to (MAX_ANSWER_LENGTH s - 3) text ++ "..."))
            \/ answer = "Unable to generate answer. Please try again."
            \/ answer = "Error: Unable to connect to AI service."))
  /\ (forall (env : Env) (s : Settings) (question : string) (w : World),
         exists answer w',
           get_coding_answer env s question w = (Return answer, w') /\ answer <> "").
Proof.
  split.
  - intros. apply answer_of_total.
  - intros env s question w. unfold get_coding_answer.
    destruct (answer_of_total s (generate_completion env s) question w)
      as (answer & w' & E & Hne & _).
    exists answer, w'. auto.
Qed.

(** The whole service on the empty question, against an endpoint that
    answers ["N/A"]: the last event is the request through the model, with
    the two messages built from [""]. *)
Example empty_question_full_stack :
  exists w',
    get_coding_answer (flaky_endpoint true 0 "N/A") test_settings "" (initial_world None)
    = (Return "N/A", w')
    /\ trace w'
       = (successful_attempt_events test_settings
          ++ [EvInvoke (chat_model_args test_settings (60 # 1)) (coding_messages "")])%list.
Proof.
  eexists. split; vm_compute; reflexivity.
Qed.

(* ===================================================================== *)
(** ** Traces                                                              *)
(* ===================================================================== *)

Lemma attempts_app (l1 l2 : list event) :
  attempts (l1 ++ l2) = (attempts l1 + attempts l2)%nat.
Proof.
  unfold attempts. rewrite filter_app, length_app. reflexivity.
Qed.

Lemma sleeps_app (l1 l2 : list event) : sleeps (l1 ++ l2) = (sleeps l1 ++ sleeps l2)%list.
Proof.
  unfold sleeps. apply flat_map_app.
Qed.

Lemma count_after (p : event -> bool) (w : World) (l : list event) :
  count p (after w l) = (count p w + List.length (filter p l))%nat.
Proof.
  unfold count, after. simpl. rewrite filter_app, length_app. reflexivity.
Qed.

Lemma after_after (w : World) (l1 l2 : list event) :
  after (after w l1) l2 = after w (l1 ++ l2).
Proof.
  unfold after. simpl. rewrite app_assoc. reflexivity.
Qed.

Lemma new_events_after (w : World) (l : list event) : new_events w (after w l) = l.
Proof.
  unfold new_events, after. simpl.
  induction (trace w) as [|x t IH]; simpl; auto.
Qed.

(* ===================================================================== *)
(** ** One attempt of [_create_azure_llm_with_retry]                       *)
(* ===================================================================== *)

Section Attempt.
Variable env : Env.
Variable s : Settings.

(** An attempt constructs exactly one raw client, never sleeps, and sends
    at most one request. *)
Lemma attempt_effects (endpoint : string) (w : World) :
  exists l,
    snd (create_azure_llm_attempt env s endpoint w) = after w l
    /\ attempts l = 1%nat
    /\ sleeps l = []
    /\ (outbound_calls l <= 1)%nat.
Proof.
  unfold create_azure_llm_attempt, try_except, bind, AzureOpenAI, create,
    AzureChatOpenAI, ret, raise, after. simpl.
  destruct (AzureOpenAI_init env _ _).
  - eexists [_]. simpl. repeat split. auto.
  - destruct (chat_completions_create env _ _ _).
    + destruct (LANGCHAIN_AVAILABLE env); [destruct (AzureChatOpenAI_init env _)|];
        simpl; rewrite <- !app_assoc; simpl;
        eexists [_; _; _]; simpl; repeat split; auto.
    + simpl. rewrite <- !app_assoc. simpl.
      eexists [_; _]; simpl; repeat split; auto.
Qed.

(** The parameter [endpoint] has no influence on the attempt. *)
Lemma attempt_ignores_endpoint (endpoint1 endpoint2 : string) :
  create_azure_llm_attempt env s endpoint1 = create_azure_llm_attempt env s endpoint2.
Proof.
  reflexivity.
Qed.

End Attempt.

(* ===================================================================== *)
(** ** The retry loop                                                      *)
(* ===================================================================== *)

Section Retrying.
Variable A : Type.
Variable rstr : exn -> string.
Variable wait : nat -> Z.
Variable f : M A.
Hypothesis f_fails : forall w, exists e, fst (f w) = Raise e.
Hypothesis f_effects :
  forall w, exists l, snd (f w) = after w l /\ attempts l = 1%nat /\ sleeps l = [].

(** When every call fails, the loop makes all the attempts it is allowed,
    sleeps [wait k] after the attempt numbered [k] except the last, and
    raises a [RetryError]. *)
Lemma retrying_exhausted (remaining k : nat) (w : World) :
  exists e l,
    tenacity.retrying rstr wait f remaining k w
    = (Raise (mkExn RetryError (rstr e)), after w l)
    /\ attempts l = S remaining
    /\ sleeps l = map wait (seq k remaining).
Proof.
  revert k w. induction remaining as [|r IH]; intros k w; simpl;
    unfold try_except;
    destruct (f_fails w) as [e Hf]; destruct (f_effects w) as (l & Hw & Ha & Hs);
    destruct (f w) as [[a|e'] w1]; simpl in Hf, Hw; try discriminate;
    injection Hf as ->; subst w1.
  - exists e, l. unfold raise. auto.
  - unfold bind, emit. simpl.
    change (mkWorld ((trace w ++ l) ++ [EvSleep (wait k)]) (OPENAI_API_KEY w))
      with (after (after w l) [EvSleep (wait k)]).
    destruct (IH (S k) (after (after w l) [EvSleep (wait k)])) as (e2 & l2 & E2 & Ha2 & Hs2).
    rewrite E2. exists e2, (l ++ EvSleep (wait k) :: l2)%list.
    rewrite !after_after. simpl. split; [reflexivity|].
    rewrite attempts_app, sleeps_app, Hs, Ha. simpl.
    change (EvSleep (wait k) :: l2) with ([EvSleep (wait k)] ++ l2)%list.
    rewrite attempts_app, Ha2. simpl. rewrite Hs2. auto.
Qed.

End Retrying.

(* ===================================================================== *)
(** ** [get_llm]                                                           *)
(* ===================================================================== *)

Section GetLlm.
Variable env : Env.
Variable s : Settings.

Lemma configured_missing_vars : configured s -> missing_vars s = [].
Proof.
  intros (K & E & D & V). unfold missing_vars, required_vars.
  destruct (AZURE_OPENAI_API_KEY s); [congruence|].
  destruct (AZURE_OPENAI_ENDPOINT s); [congruence|].
  destruct (AZURE_OPENAI_DEPLOYMENT_NAME s); [congruence|].
  destruct (AZURE_OPENAI_API_VERSION s); [congruence|].
  reflexivity.
Qed.

Lemma unconfigured_missing_vars :
  AZURE_OPENAI_API_KEY s = "" \/ AZURE_OPENAI_ENDPOINT s = ""
  \/ AZURE_OPENAI_DEPLOYMENT_NAME s = "" \/ AZURE_OPENAI_API_VERSION s = "" ->
  exists name rest, missing_vars s = name :: rest.
Proof.
  intros H. unfold missing_vars, required_vars.
  destruct (AZURE_OPENAI_API_KEY s); [simpl; eauto|].
  destruct (AZURE_OPENAI_ENDPOINT s); [simpl; eauto|].
  destruct (AZURE_OPENAI_DEPLOYMENT_NAME s); [simpl; eauto|].
  destruct (AZURE_OPENAI_API_VERSION s); [simpl; eauto|].
  destruct H as [H|[H|[H|H]]]; discriminate.
Qed.

(** With a value missing, [get_llm] raises the [ValueError] at once and
    leaves the world as it found it. *)
Lemma get_llm_unconfigured (fallback_to_openai : bool) (w : World) :
  (exists name rest, missing_vars s = name :: rest) ->
  get_llm env s fallback_to_openai w
  = (Raise (mkExn ValueError
             ("Missing required Azure OpenAI configuration values: "
              ++ PyStr.join ", " (missing_vars s))), w).
Proof.
  intros (name & rest & Hm). unfold get_llm, try_except. rewrite Hm. reflexivity.
Qed.


End GetLlm.

(** Counting down the attempts left is [stop_after_attempt]. *)
Lemma stop_after_attempt_remaining (n attempt_number : nat) :
  tenacity.stop_after_attempt n attempt_number = true <-> (n - attempt_number = 0)%nat.
Proof.
  unfold tenacity.stop_after_attempt. rewrite Nat.leb_le. lia.
Qed.

(** The waits of [wait_exponential(multiplier=1, min=4, max=10)]. *)
Lemma wait_exponential_schedule :
  map (tenacity.wait_exponential 1 4 10) (seq 1 6) = [4; 4; 4; 8; 10; 10].
Proof.
  reflexivity.
Qed.

Section RetryingSteps.
Variable A : Type.
Variable rstr : exn -> string.
Variable wait : nat -> Z.
Variable f : M A.

Lemma retrying_success (remaining k : nat) (w w1 : World) (a : A) :
  f w = (Return a, w1) ->
  tenacity.retrying rstr wait f remaining k w = (Return a, w1).
Proof.
  intros H. destruct remaining; simpl; unfold try_except; rewrite H; reflexivity.
Qed.

Lemma retrying_again (remaining k : nat) (w w1 : World) (e : exn) :
  f w = (Raise e, w1) ->
  tenacity.retrying rstr wait f (S remaining) k w
  = tenacity.retrying rstr wait f remaining (S k) (after w1 [EvSleep (wait k)]).
Proof.
  intros H. simpl. unfold try_except at 1. rewrite H. reflexivity.
Qed.

End RetryingSteps.

Section AttemptSteps.
Variable env : Env.
Variable s : Settings.

Lemma attempt_test_call_raises (endpoint : string) (w : World) (e : exn) :
  AzureOpenAI_init env (count is_construction w) (client_args s (60 # 1)) = None ->
  chat_completions_create env (count is_create w)
    (client_args s (60 # 1)) (test_request s (60 # 1)) = Raise e ->
  create_azure_llm_attempt env s endpoint w = (Raise e, after w (failed_attempt_events s)).
Proof.
  intros Hinit Hcall.
  unfold create_azure_llm_attempt, try_except, bind, AzureOpenAI. rewrite Hinit.
  unfold create.
  change (mkWorld (trace w ++ [EvAzureOpenAI (client_args s (60 # 1))]) (OPENAI_API_KEY w))
    with (after w [EvAzureOpenAI (client_args s (60 # 1))]).
  rewrite count_after. simpl List.length. rewrite Nat.add_0_r, Hcall.
  unfold raise, after. simpl. rewrite <- app_assoc. reflexivity.
Qed.

Lemma attempt_succeeds (endpoint : string) (w : World) (response : ChatCompletion) :
  AzureOpenAI_init env (count is_construction w) (client_args s (60 # 1)) = None ->
  chat_completions_create env (count is_create w)
    (client_args s (60 # 1)) (test_request s (60 # 1)) = Return response ->
  LANGCHAIN_AVAILABLE env = true ->
  AzureChatOpenAI_init env (chat_model_args s (60 # 1)) = None ->
  create_azure_llm_attempt env s endpoint w
  = (Return (Some (LangChainModel (chat_model_args s (60 # 1)))),
     after w (successful_attempt_events s)).
Proof.
  intros Hinit Hcall Hlc Hmodel.
  unfold create_azure_llm_attempt, try_except, bind, AzureOpenAI. rewrite Hinit.
  unfold create.
  change (mkWorld (trace w ++ [EvAzureOpenAI (client_args s (60 # 1))]) (OPENAI_API_KEY w))
    with (after w [EvAzureOpenAI (client_args s (60 # 1))]).
  rewrite count_after. simpl List.length. rewrite Nat.add_0_r, Hcall.
  unfold AzureChatOpenAI. rewrite Hlc, Hmodel.
  unfold ret, after. simpl. rewrite <- !app_assoc. reflexivity.
Qed.

End AttemptSteps.



(** C7 as stated fails when tenacity does not import: against the same
    flaky endpoint the stand-in decorator makes one attempt, and [get_llm]
    raises a [RuntimeError] although the third call would have been
    answered. *)
Lemma no_recovery_without_tenacity :
  chat_completions_create (flaky_endpoint false 2 "Hi") 2
    (client_args test_settings (60 # 1)) (test_request test_settings (60 # 1))
  = Return (mkChatCompletion [Some "Hi"])
  /\ get_llm (flaky_endpoint false 2 "Hi") test_settings false (initial_world None)
     = (Raise (mkExn RuntimeError
                ("Unexpected error initializing AzureChatOpenAI: "
                 ++ "Failed during Azure LLM creation or verification: "
                 ++ "Connection error.")),
        after (initial_world None) (failed_attempt_events test_settings)).
Proof.
  split; reflexivity.
Qed.

(** C9 (the code departs from it). [get_llm] extracts the base endpoint
    and hands it to [_create_azure_llm_with_retry], which never reads its
    parameter: every client is built with the endpoint as configured.  For
    the endpoint given with a deployment path, the extracted base is
    [https://myresource.openai.azure.com], yet the raw client, the test
    call and the model returned all carry the full configured URL. *)
Theorem extracted_endpoint_not_used :
  (forall env s endpoint1 endpoint2,
      _create_azure_llm_with_retry env s endpoint1
      = _create_azure_llm_with_retry env s endpoint2)
  /\ extract_base_endpoint
       (AZURE_OPENAI_ENDPOINT (default_settings (azure_environ deep_endpoint)))
     = "https://myresource.openai.azure.com"
  /\ (exists llm w',
         get_llm (flaky_endpoint true 0 "Hi")
           (default_settings (azure_environ deep_endpoint)) false (initial_world None)
         = (Return (Some (LangChainModel llm)), w')
         /\ llm_azure_endpoint llm = deep_endpoint
         /\ endpoints_used (trace w') = [deep_endpoint; deep_endpoint; deep_endpoint])
  /\ deep_endpoint <> "https://myresource.openai.azure.com".
Proof.
  split; [reflexivity|]. split; [vm_compute; reflexivity|]. split.
  - eexists _, _. split; [vm_compute; reflexivity|]. split; reflexivity.
  - discriminate.
Qed.

(* ===================================================================== *)
(** ** [generate_completion]                                               *)
(* ===================================================================== *)

Section GenerateCompletion.
Variable env : Env.
Variable s : Settings.
Variable cls_get_llm : bool -> M (option Client).
Variable messages : list message.
Variable max_tokens : Z.
Variable temperature top_p : Q.

Lemma generate_completion_on_total (w : World) :
  exists r w',
    generate_completion_on env s cls_get_llm messages max_tokens temperature top_p w
    = (Return r, w').
Proof.
  unfold generate_completion_on, try_except.
  destruct (generate_completion_try env s cls_get_llm messages max_tokens temperature top_p w)
    as [[r|e] w']; eexists _, _; reflexivity.
Qed.

Lemma generate_completion_on_absorbs (w w' : World) (e : exn) :
  generate_completion_try env s cls_get_llm messages max_tokens temperature top_p w
  = (Raise e, w') ->
  generate_completion_on env s cls_get_llm messages max_tokens temperature top_p w
  = (Return None, w').
Proof.
  intros H. unfold generate_completion_on, try_except. rewrite H. reflexivity.
Qed.

Lemma generate_completion_try_no_client (w w' : World) (e : exn) :
  cls_get_llm false w = (Raise e, w') ->
  generate_completion_try env s cls_get_llm messages max_tokens temperature top_p w
  = (Raise e, w').
Proof.
  intros H. unfold generate_completion_try, bind. rewrite H. reflexivity.
Qed.

Lemma generate_completion_try_request_fails
    (llm : ChatModelArgs) (w w1 w2 w3 : World) (e1 e2 : exn) :
  cls_get_llm false w = (Return (Some (LangChainModel llm)), w1) ->
  invoke env llm messages w1 = (Raise e1, w2) ->
  (raw_client <- AzureOpenAI env (client_args s (60 # 1));;
   raw_chat_completion env raw_client
     (completion_request s messages max_tokens temperature top_p (60 # 1)))%py w2
  = (Raise e2, w3) ->
  generate_completion_try env s cls_get_llm messages max_tokens temperature top_p w
  = (Raise e2, w3).
Proof.
  intros Hllm Hinv Hraw.
  unfold generate_completion_try, bind at 1. rewrite Hllm.
  unfold try_except, bind at 1. rewrite Hinv. exact Hraw.
Qed.

End GenerateCompletion.

(** The raw-client fallback, when it is answered. *)
Lemma completion_fallback_answered (env : Env) (s : Settings)
    (cls_get_llm : bool -> M (option Client)) (messages : list message)
    (max_tokens : Z) (temperature top_p : Q)
    (llm : ChatModelArgs) (w w1 w2 : World) (e : exn)
    (first : option string) (others : list (option string)) :
  cls_get_llm false w = (Return (Some (LangChainModel llm)), w1) ->
  invoke env llm messages w1 = (Raise e, w2) ->
  AzureOpenAI_init env (count is_construction w2) (client_args s (60 # 1)) = None ->
  chat_completions_create env (count is_create w2) (client_args s (60 # 1))
    (completion_request s messages max_tokens temperature top_p (60 # 1))
  = Return (mkChatCompletion (first :: others)) ->
  generate_completion_on env s cls_get_llm messages max_tokens temperature top_p w
  = (Return first,
     after w2 [ EvAzureOpenAI (client_args s (60 # 1));
                EvCreate (client_args s (60 # 1))
                  (completion_request s messages max_tokens temperature top_p (60 # 1)) ]).
Proof.
  intros Hllm Hinv Hinit Hcall.
  unfold generate_completion_on, generate_completion_try, try_except at 1, bind at 1.
  rewrite Hllm. unfold try_except, bind at 1. rewrite Hinv.
  unfold bind, AzureOpenAI. rewrite Hinit.
  unfold raw_chat_completion, bind, create.
  change (mkWorld (trace w2 ++ [EvAzureOpenAI (client_args s (60 # 1))]) (OPENAI_API_KEY w2))
    with (after w2 [EvAzureOpenAI (client_args s (60 # 1))]).
  rewrite count_after. simpl List.length. rewrite Nat.add_0_r, Hcall.
  unfold first_content, ret, after. simpl. rewrite <- app_assoc. reflexivity.
Qed.

(** C10 (amended). [generate_completion] never raises: it always returns.
    Whenever its [try] block raises, it returns [None]; so it does when
    client construction raises, in particular with a configuration value
    missing (and then nothing was sent), and when the request raises
    through the model and again through the raw client.
    [get_coding_answer] turns that [None] into
    ["Unable to generate answer. Please try again."], which is not the
    connectivity message.  When only the model's [invoke] raises and the
    raw client is answered, the content of its first choice is returned
    instead. *)
Theorem completion_failures_become_none (env : Env) (s : Settings)
    (messages : list message) (max_tokens : Z) (temperature top_p : Q)
    (question : string) (w : World) :
  (exists r w',
      generate_completion env s messages max_tokens temperature top_p w = (Return r, w'))
  /\ (forall e w',
         generate_completion_try env s (get_llm env s) messages max_tokens temperature top_p w
         = (Raise e, w') ->
         generate_completion env s messages max_tokens temperature top_p w
         = (Return None, w'))
  /\ (forall e w',
         get_llm env s false w = (Raise e, w') ->
         generate_completion env s messages max_tokens temperature top_p w
         = (Return None, w'))
  /\ (~ configured s ->
      generate_completion env s messages max_tokens temperature top_p w = (Return None, w))
  /\ (forall llm w1 e1 w2 e2 w3,
         get_llm env s false w = (Return (Some (LangChainModel llm)), w1) ->
         invoke env llm messages w1 = (Raise e1, w2) ->
         (raw_client <- AzureOpenAI env (client_args s (60 # 1));;
          raw_chat_completion env raw_client
            (completion_request s messages max_tokens temperature top_p (60 # 1)))%py w2
         = (Raise e2, w3) ->
         generate_completion env s messages max_tokens temperature top_p w
         = (Return None, w3))
  /\ (forall w',
         completion_call s (generate_completion env s) question w = (Return None, w') ->
         get_coding_answer env s question w
         = (Return "Unable to generate answer. Please try again.", w'))
  /\ (~ configured s ->
      get_coding_answer env s question w
      = (Return "Unable to generate answer. Please try again.", w))
  /\ "Unable to generate answer. Please try again."
     <> "Error: Unable to connect to AI service."
  /\ (forall llm w1 e1 w2 first others,
         get_llm env s false w = (Return (Some (LangChainModel llm)), w1) ->
         invoke env llm messages w1 = (Raise e1, w2) ->
         AzureOpenAI_init env (count is_construction w2) (client_args s (60 # 1)) = None ->
         chat_completions_create env (count is_create w2) (client_args s (60 # 1))
           (completion_request s messages max_tokens temperature top_p (60 # 1))
         = Return (mkChatCompletion (first :: others)) ->
         generate_completion env s messages max_tokens temperature top_p w
         = (Return first,
            after w2 [ EvAzureOpenAI (client_args s (60 # 1));
                       EvCreate (client_args s (60 # 1))
                         (completion_request s messages max_tokens temperature top_p
                            (60 # 1)) ])).
Proof.
  assert (Hmissing : forall msgs mt t p w0, ~ configured s ->
             generate_completion env s msgs mt t p w0 = (Return None, w0)).
  { intros msgs mt t p w0 Hnc.
    apply generate_completion_on_absorbs
      with (e := mkExn ValueError
                   ("Missing required Azure OpenAI configuration values: "
                    ++ PyStr.join ", " (missing_vars s))).
    apply generate_completion_try_no_client.
    apply get_llm_unconfigured. apply unconfigured_missing_vars.
    unfold configured in Hnc.
    destruct (AZURE_OPENAI_API_KEY s); [auto|].
    destruct (AZURE_OPENAI_ENDPOINT s); [auto|].
    destruct (AZURE_OPENAI_DEPLOYMENT_NAME s); [auto|].
    destruct (AZURE_OPENAI_API_VERSION s); [auto|].
    exfalso. apply Hnc. repeat split; discriminate. }
  split; [apply generate_completion_on_total|].
  split; [intros e w'; apply generate_completion_on_absorbs|].
  split.
  { intros e w' H. apply generate_completion_on_absorbs with (e := e).
    apply generate_completion_try_no_client. exact H. }
  split; [apply Hmissing|].
  split.
  { intros llm w1 e1 w2 e2 w3 Hllm Hinv Hraw.
    apply generate_completion_on_absorbs with (e := e2).
    eapply generate_completion_try_request_fails; eauto. }
  split; [intros w'; apply answer_of_none|].
  split.
  { intros Hnc. apply answer_of_none. apply Hmissing. exact Hnc. }
  split; [discriminate|].
  intros llm w1 e1 w2 first others Hllm Hinv Hinit Hcall.
  exact (completion_fallback_answered env s (get_llm env s) messages max_tokens
           temperature top_p llm w w1 w2 e1 first others Hllm Hinv Hinit Hcall).
Qed.

(** Without configuration, against an endpoint that refuses every request,
    and against one whose model alone fails. *)
Lemma completion_failures_become_none_witness :
  generate_completion (dead_endpoint true) (default_settings no_environ)
    (coding_messages "q") 1000 (7 # 10) (1 # 1) (initial_world None)
  = (Return None, initial_world None)
  /\ get_coding_answer (dead_endpoint true) (default_settings no_environ) "q"
       (initial_world None)
     = (Return "Unable to generate answer. Please try again.", initial_world None)
  /\ (exists w',
         get_coding_answer (dead_endpoint true) test_settings "q" (initial_world None)
         = (Return "Unable to generate answer. Please try again.", w'))
  /\ fst (generate_completion (model_down_endpoint "Test response") test_settings
            (coding_messages "q") 1000 (7 # 10) (1 # 1) (initial_world None))
     = Return (Some "Test response").
Proof.
  pose proof (completion_failures_become_none (dead_endpoint true)
                (default_settings no_environ) (coding_messages "q") 1000 (7 # 10) (1 # 1)
                "q" (initial_world None)) as (_ & _ & _ & Hgen & _ & _ & Hans & _).
  pose proof (completion_failures_become_none (dead_endpoint true)
                test_settings (coding_messages "q") 1000 (7 # 10) (1 # 1)
                "q" (initial_world None)) as (_ & _ & Hllm & _ & _ & Hnone & _).
  pose proof (completion_failures_become_none (model_down_endpoint "Test response")
                test_settings (coding_messages "q") 1000 (7 # 10) (1 # 1)
                "q" (initial_world None)) as (_ & _ & _ & _ & _ & _ & _ & _ & Hback).
  assert (Hnc : ~ configured (default_settings no_environ)).
  { intros (K & _). apply K. reflexivity. }
  split; [exact (Hgen Hnc)|]. split; [exact (Hans Hnc)|]. split.
  - eexists. apply Hnone. eapply Hllm. vm_compute. reflexivity.
  - erewrite Hback; [reflexivity|vm_compute; reflexivity|vm_compute; reflexivity
                    |reflexivity|reflexivity].
Defined.

(* ===================================================================== *)
(** ** Further properties of the answer service                            *)
(* ===================================================================== *)

(** A truncation within the string has exactly the budgeted length. *)
Lemma len_truncated (k : Z) (text : string) :
  3 <= k -> k < PyStr.len text -> PyStr.len (PyStr.slice_to (k - 3) text ++ "...") = k.
Proof.
  intros Hk Hlen. unfold PyStr.len at 1.
  rewrite PyStrFacts.length_append, Nat2Z.inj_add.
  fold (PyStr.len (PyStr.slice_to (k - 3) text)).
  rewrite PyStrFacts.len_slice_to by lia. simpl. lia.
Qed.

(** Every answer fits a budget of at least 44 characters. *)
Lemma answer_within_budget (s : Settings)
    (gc : list message -> Z -> Q -> Q -> M (option string))
    (question : string) (w : World) :
  44 <= MAX_ANSWER_LENGTH s ->
  exists answer w',
    get_coding_answer_on s gc question w = (Return answer, w')
    /\ PyStr.len answer <= MAX_ANSWER_LENGTH s.
Proof.
  intros Hmax.
  destruct (completion_call s gc question w) as [[[text|]|e] w'] eqn:E.
  - rewrite (answer_of_text _ _ _ _ _ _ E).
    destruct (PyStr.truthy text).
    + destruct (PyStr.len text >? MAX_ANSWER_LENGTH s) eqn:G.
      * eexists _, w'. split; [reflexivity|].
        apply Z.gtb_lt in G. rewrite len_truncated; lia.
      * exists text, w'. split; [reflexivity|].
        rewrite Z.gtb_ltb in G. apply Z.ltb_ge in G. exact G.
    + eexists _, w'. split; [reflexivity|]. vm_compute PyStr.len. lia.
  - rewrite (answer_of_none _ _ _ _ _ E).
    eexists _, w'. split; [reflexivity|]. vm_compute PyStr.len. lia.
  - rewrite (answer_of_raise _ _ _ _ _ _ E).
    eexists _, w'. split; [reflexivity|]. vm_compute PyStr.len. lia.
Qed.

(** X1. When [MAX_ANSWER_LENGTH] is at least 44 (the length of the longer
    fixed message; the default is 200), every answer of
    [get_coding_answer], whatever the completion call does, fits the
    budget. *)
Theorem answer_fits_budget (s : Settings)
    (gc : list message -> Z -> Q -> Q -> M (option string))
    (question : string) (w : World) :
  44 <= MAX_ANSWER_LENGTH s ->
  exists answer w',
    get_coding_answer_on s gc question w = (Return answer, w')
    /\ PyStr.len answer <= MAX_ANSWER_LENGTH s.
Proof.
  intros. eapply answer_within_budget; eassumption.
Qed.

Lemma answer_fits_budget_witness :
  exists answer w',
    get_coding_answer_on test_settings (mock_returns (Some (PyStr.repeat "A" 300)))
      "Test question" (initial_world None) = (Return answer, w')
    /\ PyStr.len answer <= MAX_ANSWER_LENGTH test_settings.
Proof.
  apply (answer_fits_budget test_settings (mock_returns (Some (PyStr.repeat "A" 300)))
           "Test question" (initial_world None)).
  vm_compute. discriminate.
Defined.

(** X2. [_perform_search] returns exactly what [get_coding_answer] returns,
    with the same effects: its own handler never runs, so its message
    ["Error: Unable to get answer - ..."] is never produced.  This holds
    for the patched and for the unpatched service. *)
Theorem perform_search_is_get_coding_answer :
  (forall (s : Settings) (gc : list message -> Z -> Q -> Q -> M (option string))
          (question : string) (w : World),
      _perform_search (get_coding_answer_on s gc) question w
      = get_coding_answer_on s gc question w)
  /\ (forall (env : Env) (s : Settings) (question : string) (w : World),
         _perform_search (get_coding_answer env s) question w
         = get_coding_answer env s question w).
Proof.
  assert (H : forall s gc question w,
             _perform_search (get_coding_answer_on s gc) question w
             = get_coding_answer_on s gc question w).
  { intros s gc question w.
    destruct (answer_of_total s gc question w) as (answer & w' & E & _).
    unfold _perform_search, try_except, bind. rewrite E. reflexivity. }
  split; [exact H|]. intros env s question w. apply H.
Qed.

(** X3. [TouchBarCLI.get_answer] over the service: when
    [MAX_ANSWER_LENGTH] is at least 44 it returns the answer of
    [get_coding_answer] and prints four lines, the question, the rule, the
    answer and its length; the truncation warning is never printed and the
    error branch is never taken. *)
Theorem cli_never_warns (s : Settings)
    (gc : list message -> Z -> Q -> Q -> M (option string))
    (question : string) (w : World) :
  44 <= MAX_ANSWER_LENGTH s ->
  exists answer w',
    get_coding_answer_on s gc question w = (Return answer, w')
    /\ TouchBarCLI.get_answer s (get_coding_answer_on s gc) question w
       = (Return (answer,
                  [ String Re.newline "🔍 Question: " ++ question;
                    PyStr.repeat "-" 60;
                    "💡 Answer: " ++ answer;
                    "📏 Length: " ++ str_of_int (PyStr.len answer) ++ " characters" ]),
          w').
Proof.
  intros Hmax.
  destruct (answer_within_budget s gc question w Hmax) as (answer & w' & E & Hlen).
  exists answer, w'. split; [exact E|].
  unfold TouchBarCLI.get_answer, try_except, bind. rewrite E.
  replace (PyStr.len answer >? MAX_ANSWER_LENGTH s) with false; [reflexivity|].
  symmetry. rewrite Z.gtb_ltb. apply Z.ltb_ge. exact Hlen.
Qed.

Lemma cli_never_warns_witness :
  exists answer w',
    get_coding_answer_on test_settings (mock_returns (Some (PyStr.repeat "A" 300)))
      "Test question" (initial_world None) = (Return answer, w')
    /\ TouchBarCLI.get_answer test_settings
         (get_coding_answer_on test_settings (mock_returns (Some (PyStr.repeat "A" 300))))
         "Test question" (initial_world None)
       = (Return (answer,
                  [ String Re.newline "🔍 Question: " ++ "Test question";
                    PyStr.repeat "-" 60;
                    "💡 Answer: " ++ answer;
                    "📏 Length: " ++ str_of_int (PyStr.len answer) ++ " characters" ]),
          w').
Proof.
  apply (cli_never_warns test_settings (mock_returns (Some (PyStr.repeat "A" 300)))
           "Test question" (initial_world None)).
  vm_compute. discriminate.
Defined.

(* ===================================================================== *)
(** ** Further properties of client construction                           *)
(* ===================================================================== *)

Lemma outbound_calls_app (l1 l2 : list event) :
  outbound_calls (l1 ++ l2) = (outbound_calls l1 + outbound_calls l2)%nat.
Proof.
  unfold outbound_calls. rewrite filter_app, length_app. reflexivity.
Qed.

Lemma after_nil (w : World) : after w [] = w.
Proof.
  unfold after. rewrite app_nil_r. destruct w; reflexivity.
Qed.

Lemma after_inj (w : World) (l1 l2 : list event) : after w l1 = after w l2 -> l1 = l2.
Proof.
  unfold after. intros H. injection H as H. eapply app_inv_head; eauto.
Qed.

Section RetryingBounds.
Variable A : Type.
Variable rstr : exn -> string.
Variable wait : nat -> Z.
Variable f : M A.
Hypothesis f_effects :
  forall w, exists l,
    snd (f w) = after w l
    /\ attempts l = 1%nat /\ sleeps l = [] /\ (outbound_calls l <= 1)%nat.

(** However the calls end, the loop makes at most [remaining + 1] attempts
    and requests, and its sleeps are the first waits of the schedule. *)
Lemma retrying_bounded (remaining k : nat) (w : World) :
  exists l,
    snd (tenacity.retrying rstr wait f remaining k w) = after w l
    /\ (1 <= attempts l <= S remaining)%nat
    /\ (outbound_calls l <= S remaining)%nat
    /\ exists j, (j <= remaining)%nat /\ sleeps l = map wait (seq k j).
Proof.
  revert k w. induction remaining as [|r IH]; intros k w; simpl; unfold try_except;
    destruct (f_effects w) as (l & Hw & Ha & Hs & Ho);
    destruct (f w) as [[a|e] w1]; simpl in Hw; subst w1; simpl.
  - exists l. repeat split; try lia. exists 0%nat. auto.
  - exists l. repeat split; try lia. exists 0%nat. auto.
  - exists l. repeat split; try lia. exists 0%nat. split; [lia|auto].
  - unfold bind, emit. simpl.
    change (mkWorld ((trace w ++ l) ++ [EvSleep (wait k)]) (OPENAI_API_KEY w))
      with (after (after w l) [EvSleep (wait k)]).
    destruct (IH (S k) (after (after w l) [EvSleep (wait k)]))
      as (l2 & E2 & Ha2 & Ho2 & j & Hj & Hs2).
    rewrite E2. exists (l ++ EvSleep (wait k) :: l2)%list.
    rewrite !after_after. simpl. split; [reflexivity|].
    change (EvSleep (wait k) :: l2) with ([EvSleep (wait k)] ++ l2)%list.
    rewrite !attempts_app, !outbound_calls_app, !sleeps_app, Hs, Ha, Hs2.
    unfold attempts at 2, outbound_calls at 2. simpl.
    repeat split; try lia. exists (S j). split; [lia|reflexivity].
Qed.

(** A value returned by the loop was returned by its last call. *)
Lemma retrying_returns_inv (remaining k : nat) (w w' : World) (a : A) :
  tenacity.retrying rstr wait f remaining k w = (Return a, w') ->
  exists l, f (after w l) = (Return a, w').
Proof.
  revert k w. induction remaining as [|r IH]; intros k w; simpl; unfold try_except;
    destruct (f_effects w) as (l & Hw & _);
    destruct (f w) as [[a0|e] w1] eqn:E; simpl in Hw; subst w1.
  - intros H. exists []. rewrite after_nil, E. exact H.
  - unfold raise. discriminate.
  - intros H. exists []. rewrite after_nil, E. exact H.
  - unfold bind, emit. simpl.
    change (mkWorld ((trace w ++ l) ++ [EvSleep (wait k)]) (OPENAI_API_KEY w))
      with (after (after w l) [EvSleep (wait k)]).
    intros H. destruct (IH _ _ H) as [l2 H2].
    rewrite !after_after in H2. eauto.
Qed.

(** What the loop raises is a [RetryError]. *)
Lemma retrying_raises_inv (remaining k : nat) (w w' : World) (e : exn) :
  tenacity.retrying rstr wait f remaining k w = (Raise e, w') ->
  exn_cls e = RetryError.
Proof.
  revert k w. induction remaining as [|r IH]; intros k w; simpl; unfold try_except;
    destruct (f w) as [[a0|e0] w1].
  - discriminate.
  - unfold raise. intros H. injection H as <- _. reflexivity.
  - discriminate.
  - unfold bind, emit. simpl. intros H. eapply IH; eauto.
Qed.

End RetryingBounds.

Section GetLlmFacts.
Variable env : Env.
Variable s : Settings.

(** An attempt that returns has made the test call and built the model. *)
Lemma attempt_returns_inv (endpoint : string) (w w' : World) (r : option Client) :
  create_azure_llm_attempt env s endpoint w = (Return r, w') ->
  r = Some (LangChainModel (chat_model_args s (60 # 1)))
  /\ w' = after w (successful_attempt_events s)
  /\ LANGCHAIN_AVAILABLE env = true.
Proof.
  unfold create_azure_llm_attempt, try_except, bind, AzureOpenAI, create,
    AzureChatOpenAI, ret, raise, after. simpl.
  destruct (AzureOpenAI_init env _ _); [discriminate|].
  destruct (chat_completions_create env _ _ _); [|discriminate].
  destruct (LANGCHAIN_AVAILABLE env); [|discriminate].
  destruct (AzureChatOpenAI_init env _); [discriminate|].
  simpl. intros H. injection H as <- <-.
  rewrite <- !app_assoc. auto.
Qed.

(** The decorated function: bounded effort whatever happens. *)
Lemma create_with_retry_bounded (endpoint : string) (w : World) :
  exists l,
    snd (_create_azure_llm_with_retry env s endpoint w) = after w l
    /\ (1 <= attempts l <= 3)%nat
    /\ (outbound_calls l <= 3)%nat
    /\ (sleeps l = [] \/ sleeps l = [4] \/ sleeps l = [4; 4]).
Proof.
  unfold _create_azure_llm_with_retry, retry.
  destruct (TENACITY_AVAILABLE env).
  - destruct (retrying_bounded _ (RetryError_str env) (tenacity.wait_exponential 1 4 10)
                (create_azure_llm_attempt env s endpoint)
                (attempt_effects env s endpoint) 2 1 w)
      as (l & E & Ha & Ho & j & Hj & Hs).
    exists l. change (3 - 1)%nat with 2%nat. repeat split; try assumption; try lia.
    destruct j as [|[|[|j]]]; try lia; rewrite Hs; auto.
  - destruct (attempt_effects env s endpoint w) as (l & E & Ha & Hs & Ho).
    exists l. repeat split; try assumption; try lia. auto.
Qed.

(** The decorated function returns only the model of a successful last
    attempt. *)
Lemma create_with_retry_returns_inv (endpoint : string) (w w' : World)
    (r : option Client) :
  _create_azure_llm_with_retry env s endpoint w = (Return r, w') ->
  r = Some (LangChainModel (chat_model_args s (60 # 1)))
  /\ LANGCHAIN_AVAILABLE env = true
  /\ exists l, w' = after w (l ++ successful_attempt_events s).
Proof.
  unfold _create_azure_llm_with_retry, retry.
  destruct (TENACITY_AVAILABLE env); intros H.
  - assert (Heff : forall w1, exists l,
               snd (create_azure_llm_attempt env s endpoint w1) = after w1 l
               /\ attempts l = 1%nat /\ sleeps l = [] /\ (outbound_calls l <= 1)%nat)
      by apply attempt_effects.
    destruct (retrying_returns_inv _ _ _ _ Heff _ _ _ _ _ H) as [l Hl].
    apply attempt_returns_inv in Hl. destruct Hl as (-> & -> & Hlc).
    rewrite after_after. eauto.
  - apply attempt_returns_inv in H. destruct H as (-> & -> & Hlc).
    repeat split; auto. exists []. reflexivity.
Qed.

Lemma missing_vars_nil_configured : missing_vars s = [] -> configured s.
Proof.
  unfold missing_vars, required_vars, configured.
  destruct (AZURE_OPENAI_API_KEY s); [discriminate|].
  destruct (AZURE_OPENAI_ENDPOINT s); [discriminate|].
  destruct (AZURE_OPENAI_DEPLOYMENT_NAME s); [discriminate|].
  destruct (AZURE_OPENAI_API_VERSION s); [discriminate|].
  intros _. repeat split; discriminate.
Qed.

Lemma configured_dec : configured s \/ exists name rest, missing_vars s = name :: rest.
Proof.
  destruct (missing_vars s) as [|name rest] eqn:E.
  - left. apply missing_vars_nil_configured. exact E.
  - right. eauto.
Qed.

Lemma unconfigured_not_configured :
  (exists name rest, missing_vars s = name :: rest) -> ~ configured s.
Proof.
  intros (name & rest & E) Hc. rewrite (configured_missing_vars s Hc) in E. discriminate.
Qed.

(** With the configuration complete, [get_llm] is the decorated function
    run after the clean-up of [os.environ], its result classified. *)
Lemma get_llm_configured_cases (fallback_to_openai : bool) (w : World) :
  configured s ->
  exists k,
    remove_openai_api_key s w = (Return tt, mkWorld (trace w) k)
    /\ (k = match OPENAI_API_KEY w with
            | Some v => if String.eqb v (AZURE_OPENAI_API_KEY s) then None else Some v
            | None => None
            end)
    /\ let r := _create_azure_llm_with_retry env s
                  (extract_base_endpoint (AZURE_OPENAI_ENDPOINT s))
                  (mkWorld (trace w) k) in
       (exists c, fst r = Return (Some c)
                  /\ get_llm env s fallback_to_openai w = (Return (Some c), snd r))
       \/ (exists msg,
              ((exists e, fst r = Raise e) \/ fst r = Return None)
              /\ get_llm env s fallback_to_openai w
                 = (Raise (mkExn RuntimeError msg), snd r)).
Proof.
  intros Hc.
  assert (Hk : exists k,
             remove_openai_api_key s w = (Return tt, mkWorld (trace w) k)
             /\ k = match OPENAI_API_KEY w with
                    | Some v => if String.eqb v (AZURE_OPENAI_API_KEY s) then None else Some v
                    | None => None
                    end).
  { unfold remove_openai_api_key. destruct w as [t [v|]]; simpl.
    - destruct (String.eqb v _); eauto.
    - eauto. }
  destruct Hk as (k & Hk & Hkv). exists k. split; [exact Hk|]. split; [exact Hkv|].
  unfold get_llm, try_except, bind. rewrite (configured_missing_vars s Hc), Hk.
  destruct (_create_azure_llm_with_retry env s _ _) as [[[c|]|e] w1]; simpl.
  - left. eauto.
  - right. eexists. split; [right; reflexivity|reflexivity].
  - right. destruct (isinstance e RetryError); simpl;
      eexists; (split; [left; eauto|reflexivity]).
Qed.

End GetLlmFacts.

(** X4. [get_llm] raises as its docstring says: a [ValueError] exactly when
    a required configuration value is missing, and then nothing has
    happened; with the configuration complete, every failure, whatever the
    libraries raised, surfaces as a [RuntimeError]. *)
Theorem get_llm_raises_as_documented (env : Env) (s : Settings)
    (fallback_to_openai : bool) (w w' : World) (e : exn) :
  get_llm env s fallback_to_openai w = (Raise e, w') ->
  (exn_cls e = ValueError /\ ~ configured s /\ w' = w)
  \/ (exn_cls e = RuntimeError /\ configured s).
Proof.
  intros H. destruct (configured_dec s) as [Hc|Hm].
  - right. split; [|exact Hc].
    destruct (get_llm_configured_cases env s fallback_to_openai w Hc)
      as (k & _ & _ & [(c & _ & E)|(msg & _ & E)]);
      rewrite E in H; [discriminate|]. injection H as <- _. reflexivity.
  - left. rewrite (get_llm_unconfigured env s fallback_to_openai w Hm) in H.
    injection H as <- <-. repeat split. apply unconfigured_not_configured. exact Hm.
Qed.

Lemma get_llm_raises_as_documented_witness :
  (exn_cls (mkExn RuntimeError
              ("Unexpected error initializing AzureChatOpenAI: "
               ++ "Failed during Azure LLM creation or verification: "
               ++ "Connection error.")) = ValueError
   /\ ~ configured test_settings
   /\ after (initial_world None) (failed_attempt_events test_settings) = initial_world None)
  \/ (exn_cls (mkExn RuntimeError
                 ("Unexpected error initializing AzureChatOpenAI: "
                  ++ "Failed during Azure LLM creation or verification: "
                  ++ "Connection error.")) = RuntimeError
      /\ configured test_settings).
Proof.
  apply (get_llm_raises_as_documented (flaky_endpoint false 2 "Hi") test_settings false
           (initial_world None)).
  reflexivity.
Defined.

(** What [get_llm] returns, and how the run ended. *)
Lemma get_llm_return_inv (env : Env) (s : Settings)
    (fallback_to_openai : bool) (w w' : World) (c : option Client) :
  get_llm env s fallback_to_openai w = (Return c, w') ->
  c = Some (LangChainModel (chat_model_args s (60 # 1)))
  /\ configured s
  /\ LANGCHAIN_AVAILABLE env = true
  /\ exists l, trace w' = (trace w ++ l ++ successful_attempt_events s)%list.
Proof.
  intros H. destruct (configured_dec s) as [Hc|Hm].
  - destruct (get_llm_configured_cases env s fallback_to_openai w Hc)
      as (k & _ & _ & [(c0 & Hr & E)|(msg & _ & E)]);
      rewrite E in H; [|discriminate].
    injection H as <- <-.
    destruct (_create_azure_llm_with_retry env s _ _) as [r w1] eqn:R.
    simpl in Hr. subst r.
    apply create_with_retry_returns_inv in R. destruct R as (R & Hlc & l & ->).
    split; [exact R|]. split; [exact Hc|]. split; [exact Hlc|].
    exists l. reflexivity.
  - rewrite (get_llm_unconfigured env s fallback_to_openai w Hm) in H. discriminate.
Qed.

(** X5. Whatever [get_llm] returns is the LangChain model built from the
    settings, never [None] and never a raw client; the configuration was
    complete, [langchain_openai] imports, and the run ended with a
    successful attempt: raw client, answered test call, model. *)
Theorem get_llm_returns_the_model (env : Env) (s : Settings)
    (fallback_to_openai : bool) (w w' : World) (c : option Client) :
  get_llm env s fallback_to_openai w = (Return c, w') ->
  c = Some (LangChainModel (chat_model_args s (60 # 1)))
  /\ configured s
  /\ LANGCHAIN_AVAILABLE env = true
  /\ exists l, trace w' = (trace w ++ l ++ successful_attempt_events s)%list.
Proof.
  intros. eapply get_llm_return_inv; eassumption.
Qed.

Lemma get_llm_returns_the_model_witness :
  Some (LangChainModel (chat_model_args test_settings (60 # 1)))
  = Some (LangChainModel (chat_model_args test_settings (60 # 1)))
  /\ configured test_settings
  /\ LANGCHAIN_AVAILABLE (flaky_endpoint true 0 "Hi") = true
  /\ exists l,
       trace (after (initial_world None) (successful_attempt_events test_settings))
       = (trace (initial_world None) ++ l ++ successful_attempt_events test_settings)%list.
Proof.
  apply (get_llm_returns_the_model (flaky_endpoint true 0 "Hi") test_settings false
           (initial_world None)).
  reflexivity.
Defined.

(** The effort of one [get_llm]. *)
Lemma get_llm_effort (env : Env) (s : Settings)
    (fallback_to_openai : bool) (w : World) :
  exists l,
    trace (snd (get_llm env s fallback_to_openai w)) = (trace w ++ l)%list
    /\ (attempts l <= 3)%nat
    /\ (outbound_calls l <= 3)%nat
    /\ (sleeps l = [] \/ sleeps l = [4] \/ sleeps l = [4; 4]).
Proof.
  destruct (configured_dec s) as [Hc|Hm].
  - destruct (get_llm_configured_cases env s fallback_to_openai w Hc)
      as (k & _ & _ & Hcases).
    destruct (create_with_retry_bounded env s
                (extract_base_endpoint (AZURE_OPENAI_ENDPOINT s)) (mkWorld (trace w) k))
      as (l & El & Ha & Ho & Hs).
    exists l.
    assert (Hw : snd (get_llm env s fallback_to_openai w) = after (mkWorld (trace w) k) l).
    { destruct Hcases as [(c & _ & E)|(msg & _ & E)]; rewrite E; exact El. }
    rewrite Hw. repeat split; try assumption; lia.
  - rewrite (get_llm_unconfigured env s fallback_to_openai w Hm).
    exists []. simpl. rewrite app_nil_r. repeat split; auto.
Qed.

(** X6. One call of [get_llm] does a bounded amount of work in every
    environment: at most 3 attempts, at most 3 outbound requests, and it
    sleeps not at all, 4 seconds, or 4 and 4 seconds. *)
Theorem get_llm_bounded_effort (env : Env) (s : Settings)
    (fallback_to_openai : bool) (w : World) :
  exists l,
    trace (snd (get_llm env s fallback_to_openai w)) = (trace w ++ l)%list
    /\ (attempts l <= 3)%nat
    /\ (outbound_calls l <= 3)%nat
    /\ (sleeps l = [] \/ sleeps l = [4] \/ sleeps l = [4; 4]).
Proof.
  apply get_llm_effort.
Qed.

(** X7. With the configuration complete, [get_llm] leaves [OPENAI_API_KEY]
    as it was unless it held the Azure key, in which case the variable is
    deleted; either way the process environment no longer offers the Azure
    key as an OpenAI key, whether or not the client could be built. *)
Theorem get_llm_cleans_openai_api_key (env : Env) (s : Settings)
    (fallback_to_openai : bool) (w : World) :
  configured s ->
  OPENAI_API_KEY (snd (get_llm env s fallback_to_openai w))
  = match OPENAI_API_KEY w with
    | Some v => if String.eqb v (AZURE_OPENAI_API_KEY s) then None else Some v
    | None => None
    end
  /\ OPENAI_API_KEY (snd (get_llm env s fallback_to_openai w))
     <> Some (AZURE_OPENAI_API_KEY s).
Proof.
  intros Hc.
  destruct (get_llm_configured_cases env s fallback_to_openai w Hc)
    as (k & _ & Hk & Hcases).
  destruct (create_with_retry_bounded env s
              (extract_base_endpoint (AZURE_OPENAI_ENDPOINT s)) (mkWorld (trace w) k))
    as (l & El & _).
  assert (Hw : snd (get_llm env s fallback_to_openai w) = after (mkWorld (trace w) k) l).
  { destruct Hcases as [(c & _ & E)|(msg & _ & E)]; rewrite E; exact El. }
  rewrite Hw. simpl. rewrite Hk. split; [reflexivity|].
  destruct (OPENAI_API_KEY w) as [v|]; [|discriminate].
  destruct (String.eqb v (AZURE_OPENAI_API_KEY s)) eqn:Ev; [discriminate|].
  intros H. injection H as ->. rewrite String.eqb_refl in Ev. discriminate.
Qed.

Lemma get_llm_cleans_openai_api_key_witness :
  OPENAI_API_KEY (snd (get_llm (dead_endpoint true) test_settings false
                         (initial_world (Some "test_key"))))
  = match OPENAI_API_KEY (initial_world (Some "test_key")) with
    | Some v => if String.eqb v (AZURE_OPENAI_API_KEY test_settings) then None else Some v
    | None => None
    end
  /\ OPENAI_API_KEY (snd (get_llm (dead_endpoint true) test_settings false
                            (initial_world (Some "test_key"))))
     <> Some (AZURE_OPENAI_API_KEY test_settings).
Proof.
  apply (get_llm_cleans_openai_api_key (dead_endpoint true) test_settings false
           (initial_world (Some "test_key"))).
  repeat split; discriminate.
Defined.

(* ===================================================================== *)
(** ** Further properties of [generate_completion]                         *)
(* ===================================================================== *)

(** X8. The fallback of [generate_completion] recovers: when the model's
    [invoke] raises, a raw client is built and asked with the caller's
    [max_tokens], [temperature] and [top_p], and the content of the first
    choice is returned. *)
Theorem completion_falls_back_to_raw_client (env : Env) (s : Settings)
    (cls_get_llm : bool -> M (option Client)) (messages : list message)
    (max_tokens : Z) (temperature top_p : Q)
    (llm : ChatModelArgs) (w w1 w2 : World) (e : exn)
    (first : option string) (others : list (option string)) :
  cls_get_llm false w = (Return (Some (LangChainModel llm)), w1) ->
  invoke env llm messages w1 = (Raise e, w2) ->
  AzureOpenAI_init env (count is_construction w2) (client_args s (60 # 1)) = None ->
  chat_completions_create env (count is_create w2) (client_args s (60 # 1))
    (completion_request s messages max_tokens temperature top_p (60 # 1))
  = Return (mkChatCompletion (first :: others)) ->
  generate_completion_on env s cls_get_llm messages max_tokens temperature top_p w
  = (Return first,
     after w2 [ EvAzureOpenAI (client_args s (60 # 1));
                EvCreate (client_args s (60 # 1))
                  (completion_request s messages max_tokens temperature top_p (60 # 1)) ]).
Proof.
  intros Hllm Hinv Hinit Hcall.
  unfold generate_completion_on, generate_completion_try, try_except at 1, bind at 1.
  rewrite Hllm. unfold try_except, bind at 1. rewrite Hinv.
  unfold bind, AzureOpenAI. rewrite Hinit.
  unfold raw_chat_completion, bind, create.
  change (mkWorld (trace w2 ++ [EvAzureOpenAI (client_args s (60 # 1))]) (OPENAI_API_KEY w2))
    with (after w2 [EvAzureOpenAI (client_args s (60 # 1))]).
  rewrite count_after. simpl List.length. rewrite Nat.add_0_r, Hcall.
  unfold first_content, ret, after. simpl. rewrite <- app_assoc. reflexivity.
Qed.

(** The fallback test of the suite. *)
Lemma completion_falls_back_to_raw_client_witness :
  generate_completion_on (model_down_endpoint "Test response") test_settings
    (mock_get_llm (Some (LangChainModel (chat_model_args test_settings (60 # 1)))))
    [mkMessage "user" "Test question"] 4096 (7 # 10) (1 # 1) (initial_world None)
  = (Return (Some "Test response"),
     after (after (initial_world None)
              [EvInvoke (chat_model_args test_settings (60 # 1))
                 [mkMessage "user" "Test question"]])
       [ EvAzureOpenAI (client_args test_settings (60 # 1));
         EvCreate (client_args test_settings (60 # 1))
           (completion_request test_settings [mkMessage "user" "Test question"]
              4096 (7 # 10) (1 # 1) (60 # 1)) ]).
Proof.
  apply (completion_falls_back_to_raw_client (model_down_endpoint "Test response")
           test_settings
           (mock_get_llm (Some (LangChainModel (chat_model_args test_settings (60 # 1)))))
           [mkMessage "user" "Test question"] 4096 (7 # 10) (1 # 1)
           (chat_model_args test_settings (60 # 1))
           (initial_world None) (initial_world None)
           (after (initial_world None)
              [EvInvoke (chat_model_args test_settings (60 # 1))
                 [mkMessage "user" "Test question"]])
           (mkExn (OtherError "Exception") "LangChain failed")
           (Some "Test response") []);
    reflexivity.
Defined.

(** The model path of [generate_completion]. *)
Lemma completion_parameters_unused_lemma (env : Env) (s : Settings)
    (cls_get_llm : bool -> M (option Client)) (messages : list message)
    (llm : ChatModelArgs) (w w1 w2 : World) (text : string) :
  cls_get_llm false w = (Return (Some (LangChainModel llm)), w1) ->
  invoke env llm messages w1 = (Return text, w2) ->
  forall (max_tokens : Z) (temperature top_p : Q),
    generate_completion_on env s cls_get_llm messages max_tokens temperature top_p w
    = (Return (Some text), w2).
Proof.
  intros Hllm Hinv max_tokens temperature top_p.
  unfold generate_completion_on, generate_completion_try, try_except at 1, bind at 1.
  rewrite Hllm. unfold try_except, bind. rewrite Hinv. reflexivity.
Qed.

(** X9. When the model's [invoke] returns, [generate_completion] returns its
    content whatever [max_tokens], [temperature] and [top_p] were passed:
    these parameters (and so [MAX_TOKENS] and [TEMPERATURE] of the settings)
    only reach the raw-client fallback. *)
Theorem completion_parameters_unused_by_model (env : Env) (s : Settings)
    (cls_get_llm : bool -> M (option Client)) (messages : list message)
    (llm : ChatModelArgs) (w w1 w2 : World) (text : string) :
  cls_get_llm false w = (Return (Some (LangChainModel llm)), w1) ->
  invoke env llm messages w1 = (Return text, w2) ->
  forall (max_tokens : Z) (temperature top_p : Q),
    generate_completion_on env s cls_get_llm messages max_tokens temperature top_p w
    = (Return (Some text), w2).
Proof.
  intros. eapply completion_parameters_unused_lemma; eassumption.
Qed.

(** The success test of the suite, with two different parameter sets. *)
Lemma completion_parameters_unused_by_model_witness :
  generate_completion_on (flaky_endpoint true 0 "Test completion") test_settings
    (mock_get_llm (Some (LangChainModel (chat_model_args test_settings (60 # 1)))))
    [mkMessage "user" "Test question"] 4096 (7 # 10) (1 # 1) (initial_world None)
  = (Return (Some "Test completion"),
     after (initial_world None)
       [EvInvoke (chat_model_args test_settings (60 # 1))
          [mkMessage "user" "Test question"]])
  /\ generate_completion_on (flaky_endpoint true 0 "Test completion") test_settings
       (mock_get_llm (Some (LangChainModel (chat_model_args test_settings (60 # 1)))))
       [mkMessage "user" "Test question"] 5 (0 # 1) (1 # 2) (initial_world None)
     = (Return (Some "Test completion"),
        after (initial_world None)
          [EvInvoke (chat_model_args test_settings (60 # 1))
             [mkMessage "user" "Test question"]]).
Proof.
  pose proof (completion_parameters_unused_by_model
                (flaky_endpoint true 0 "Test completion") test_settings
                (mock_get_llm (Some (LangChainModel (chat_model_args test_settings (60 # 1)))))
                [mkMessage "user" "Test question"]
                (chat_model_args test_settings (60 # 1))
                (initial_world None) (initial_world None)
                (after (initial_world None)
                   [EvInvoke (chat_model_args test_settings (60 # 1))
                      [mkMessage "user" "Test question"]])
                "Test completion" eq_refl eq_refl) as H.
  split; apply H.
Defined.

(** Closes the accounting goals of a run whose trace is [l] followed by a
    few explicit events. *)
Ltac count_events Hl :=
  simpl; rewrite Hl, <- !app_assoc, outbound_calls_app, attempts_app;
  (split; [reflexivity|]);
  unfold outbound_calls, attempts in *; simpl;
  repeat split; try lia; try congruence; try (apply in_or_app; auto).

(** X10. What one [generate_completion] costs, in every environment: it
    always returns, after at most 5 outbound requests and at most 4 raw
    clients constructed; and whenever it returns a value other than [None]
    at least 2 requests were sent, because the client is rebuilt, and its
    connectivity test repeated, for every completion. *)
Theorem completion_cost (env : Env) (s : Settings) (messages : list message)
    (max_tokens : Z) (temperature top_p : Q) (w : World) :
  exists r w' l,
    generate_completion env s messages max_tokens temperature top_p w = (Return r, w')
    /\ trace w' = (trace w ++ l)%list
    /\ (outbound_calls l <= 5)%nat
    /\ (attempts l <= 4)%nat
    /\ (r <> None ->
        (2 <= outbound_calls l)%nat
        /\ In (EvCreate (client_args s (60 # 1)) (test_request s (60 # 1))) l).
Proof.
  destruct (get_llm_effort env s false w) as (l & Hl & Ha & Ho & _).
  unfold generate_completion, generate_completion_on, generate_completion_try,
    try_except at 1, bind at 1.
  destruct (get_llm env s false w) as [[c|e] w1] eqn:G; simpl in Hl.
  - destruct (get_llm_return_inv env s false w w1 c G) as (-> & _ & _ & l0 & Ht).
    assert (El : l = (l0 ++ successful_attempt_events s)%list).
    { rewrite Hl in Ht. apply app_inv_head in Ht. exact Ht. }
    assert (Ho1 : (1 <= outbound_calls l)%nat).
    { rewrite El, outbound_calls_app. unfold outbound_calls at 2. simpl. lia. }
    assert (Hin : In (EvCreate (client_args s (60 # 1)) (test_request s (60 # 1))) l).
    { rewrite El. apply in_or_app. right. simpl. auto. }
    unfold try_except, bind, invoke.
    destruct (llm_invoke env _ _ _) as [text|e1].
    + eexists _, _, (l ++ [_])%list. split; [reflexivity|]. count_events Hl.
    + unfold AzureOpenAI. simpl.
      destruct (AzureOpenAI_init env _ _) as [e2|].
      * eexists _, _, (l ++ [_; _])%list. split; [reflexivity|]. count_events Hl.
      * unfold raw_chat_completion, bind, create. simpl.
        destruct (chat_completions_create env _ _ _) as [resp|e3].
        -- unfold first_content. destruct (choices resp) as [|first others];
             unfold raise, ret;
             eexists _, _, (l ++ [_; _; _])%list; (split; [reflexivity|]);
             count_events Hl.
        -- eexists _, _, (l ++ [_; _; _])%list. split; [reflexivity|]. count_events Hl.
  - exists None, w1, l. split; [reflexivity|]. split; [exact Hl|].
    repeat split; try lia; congruence.
Qed.

(* ===================================================================== *)
(** ** The start-up checks of [main.py] and [main_cli.py]                   *)
(* ===================================================================== *)

Lemma check_environment_true (environ : string -> option string) :
  main.check_environment environ = true <->
  env_truthy environ "AZURE_OPENAI_API_KEY" = true
  /\ env_truthy environ "AZURE_OPENAI_ENDPOINT" = true
  /\ env_truthy environ "AZURE_OPENAI_DEPLOYMENT_NAME" = true.
Proof.
  unfold main.check_environment, main.missing_vars, main.required_vars. simpl.
  destruct (env_truthy environ "AZURE_OPENAI_API_KEY");
    destruct (env_truthy environ "AZURE_OPENAI_ENDPOINT");
    destruct (env_truthy environ "AZURE_OPENAI_DEPLOYMENT_NAME"); simpl;
    split; intros H; try discriminate; try tauto;
    destruct H as (H1 & H2 & H3); discriminate.
Qed.

Lemma env_truthy_getenv (environ : string -> option string) (name : string) :
  env_truthy environ name = PyStr.truthy (getenv environ name "").
Proof.
  unfold env_truthy, getenv. destruct (environ name); reflexivity.
Qed.

Lemma truthy_false (v : string) : PyStr.truthy v = false -> v = "".
Proof.
  destruct v; [reflexivity|discriminate].
Qed.

(** X12. [test_azure_connection] never raises and answers for the
    connection itself: it returns [True] only when the configuration is
    complete and the run ended with a successful attempt (raw client,
    answered test call, model), and [False] without any effect when a
    configuration value is missing; it sends at most 3 requests. *)
Theorem connection_test_outcome (env : Env) (s : Settings) (w : World) :
  exists b w' l,
    main.test_azure_connection env s w = (Return b, w')
    /\ trace w' = (trace w ++ l)%list
    /\ (outbound_calls l <= 3)%nat
    /\ (b = true ->
        configured s
        /\ exists l0, l = (l0 ++ successful_attempt_events s)%list)
    /\ (~ configured s -> b = false /\ w' = w).
Proof.
  unfold main.test_azure_connection, try_except, bind.
  destruct (configured_dec s) as [Hc|Hm].
  - destruct (get_llm_configured_cases env s false w Hc) as (k & _ & _ & Hcases).
    destruct (create_with_retry_bounded env s
                (extract_base_endpoint (AZURE_OPENAI_ENDPOINT s)) (mkWorld (trace w) k))
      as (l & El & _ & Ho & _).
    destruct (_create_azure_llm_with_retry env s _ _) as [r w1] eqn:R.
    simpl in El. subst w1.
    destruct Hcases as [(c & Hr & G)|(msg & _ & G)]; rewrite G; simpl in *.
    + subst r. apply create_with_retry_returns_inv in R.
      destruct R as (_ & _ & l0 & R). apply after_inj in R.
      exists true, (after (mkWorld (trace w) k) l), l.
      split; [reflexivity|]. split; [reflexivity|]. split; [exact Ho|]. split.
      * intros _. split; [exact Hc|]. exists l0. exact R.
      * intros Hnc. contradiction.
    + exists false, (after (mkWorld (trace w) k) l), l.
      split; [reflexivity|]. split; [reflexivity|]. split; [exact Ho|]. split.
      * discriminate.
      * intros Hnc. contradiction.
  - rewrite (get_llm_unconfigured env s false w Hm).
    exists false, w, []. rewrite app_nil_r.
    split; [reflexivity|]. split; [reflexivity|]. split; [apply Nat.le_0_l|]. split.
    + discriminate.
    + auto.
Qed.

(* ===================================================================== *)
(** ** The clean-up of the endpoint                                        *)
(* ===================================================================== *)

Module ReFacts.
Import Re.

Section Results.
Variable R : Type.

(** A match only ever returns what its continuation returned. *)
Lemma star_some (c : cls) (s : string) (k : string -> option R) (x : R) :
  star R c s k = Some x -> exists rest, k rest = Some x.
Proof.
  induction s as [|a s IH]; simpl; [eauto|].
  destruct (cls_matches c a); [|eauto].
  destruct (star R c s k) as [y|] eqn:E; [|eauto].
  intros H. injection H as ->. apply IH. reflexivity.
Qed.

Lemma run_some (r : re) (s : string) (k : string -> option R) (x : R) :
  run R r s k = Some x -> exists rest, k rest = Some x.
Proof.
  revert s k. induction r as [l|c|c|r1 IH1 r2 IH2|r1 IH1 r2 IH2|r1 IH1];
    intros s k; simpl.
  - destruct (PyStr.startswith l s); [eauto|discriminate].
  - destruct s as [|a s]; [discriminate|].
    destruct (cls_matches c a); [apply star_some|discriminate].
  - apply star_some.
  - intros H. apply IH1 in H. destruct H as [rest H]. apply IH2 in H. exact H.
  - destruct (run R r1 s k) as [y|] eqn:E.
    + intros H. injection H as ->. eapply IH1; eauto.
    + apply IH2.
  - destruct (run R r1 s k) as [y|] eqn:E.
    + intros H. injection H as ->. eapply IH1; eauto.
    + eauto.
Qed.

(** Greedy repetition over a run of class characters: if the match
    succeeds from the end of the run, the longer run changes nothing. *)
Lemma star_over_run (c : cls) (h m : string) (k : string -> option R) (x : R) :
  all_chars (cls_matches c) h = true ->
  star R c m k = Some x ->
  star R c (h ++ m) k = Some x.
Proof.
  intros Hh Hm. induction h as [|a h IH]; simpl in *; [exact Hm|].
  apply andb_true_iff in Hh. destruct Hh as [Ha Hh].
  rewrite Ha, (IH Hh). reflexivity.
Qed.

(** A repetition followed by a continuation that always answers [x]. *)
Lemma star_const (c : cls) (s : string) (x : R) :
  star R c s (fun _ => Some x) = Some x.
Proof.
  induction s as [|a s IH]; simpl; [reflexivity|].
  destruct (cls_matches c a); [rewrite IH|]; reflexivity.
Qed.

End Results.

End ReFacts.

Lemma startswith_take (n : nat) (s : string) : PyStr.startswith (PyStr.take n s) s = true.
Proof.
  revert s. induction n as [|n IH]; intros [|c s]; simpl; auto.
  rewrite Ascii.eqb_refl, IH. reflexivity.
Qed.

Lemma startswith_refl (s : string) : PyStr.startswith s s = true.
Proof.
  induction s as [|c s IH]; simpl; auto. rewrite Ascii.eqb_refl, IH. reflexivity.
Qed.

Lemma startswith_rstrip (c : ascii) (s : string) :
  PyStr.startswith (PyStr.rstrip c s) s = true.
Proof.
  induction s as [|a s IH]; simpl; auto.
  destruct (PyStr.rstrip c s) as [|b r].
  - destruct (Ascii.eqb a c); simpl; auto. rewrite Ascii.eqb_refl. reflexivity.
  - simpl in *. rewrite Ascii.eqb_refl. exact IH.
Qed.

(** X13. The cleaned endpoint is always a prefix of the configured one:
    the clean-up only ever cuts the URL, in each of its four branches. *)
Theorem extracted_endpoint_is_prefix (endpoint : string) :
  PyStr.startswith (extract_base_endpoint endpoint) endpoint = true.
Proof.
  unfold extract_base_endpoint.
  destruct (Re.match_group1 _ _ endpoint) as [group1|] eqn:E.
  - unfold Re.match_group1 in E.
    apply ReFacts.run_some in E. destruct E as [rest1 E].
    apply ReFacts.run_some in E. destruct E as [rest2 E].
    injection E as <-. apply startswith_take.
  - destruct (PyStr.contains "/deployments/" endpoint).
    + unfold PyStr.split_head.
      destruct (PyStr.find "/deployments/" endpoint);
        [apply startswith_take|apply startswith_refl].
    + destruct (PyStr.endswith "/" endpoint);
        [apply startswith_rstrip|apply startswith_refl].
Qed.

Lemma append_assoc (a b c : string) : (a ++ b) ++ c = a ++ b ++ c.
Proof.
  induction a as [|x a IH]; simpl; [reflexivity|]. rewrite IH. reflexivity.
Qed.

Lemma take_app_exact (p rest : string) :
  PyStr.take (String.length (p ++ rest) - String.length rest) (p ++ rest) = p.
Proof.
  rewrite PyStrFacts.length_append.
  replace (String.length p + String.length rest - String.length rest)%nat
    with (String.length p) by lia.
  induction p as [|x p IH]; simpl.
  - destruct rest; reflexivity.
  - rewrite IH. reflexivity.
Qed.

(** What follows the capturing group always matches. *)
Lemma base_endpoint_tail_total (rest : string) (x : string) :
  Re.run string base_endpoint_tail rest (fun _ => Some x) = Some x.
Proof.
  unfold base_endpoint_tail. cbn [Re.run].
  destruct (PyStr.startswith "/" rest); [|reflexivity].
  rewrite ReFacts.star_const. reflexivity.
Qed.

(** The capturing group on a host of an Azure service, followed by
    nothing or by a path. *)
Lemma base_endpoint_group_matches (R : Type) (service host rest : string)
    (k : string -> option R) (x : R) :
  service = "openai" \/ service = "cognitive" ->
  host <> "" ->
  all_chars not_slash host = true ->
  rest = "" \/ (exists path, rest = String "/" path) ->
  k rest = Some x ->
  Re.run R base_endpoint_group
    ("https://" ++ host ++ "." ++ service ++ ".azure.com" ++ rest) k = Some x.
Proof.
  intros Hservice Hhost Hclass Hrest Hk.
  destruct host as [|a host]; [congruence|].
  simpl in Hclass. apply andb_true_iff in Hclass. destruct Hclass as [Ha Hclass].
  unfold base_endpoint_group.
  cbn [Re.run PyStr.startswith PyStr.drop String.length append Ascii.eqb Bool.eqb andb].
  fold not_slash. unfold not_slash in Ha. rewrite Ha.
  apply ReFacts.star_over_run; [exact Hclass|].
  destruct Hservice as [-> | ->]; destruct Hrest as [-> | [path ->]];
    cbn; rewrite Hk; reflexivity.
Qed.

(** X14. For an endpoint [https://<host>.openai.azure.com] or
    [https://<host>.cognitive.azure.com], with a non-empty host free of
    slashes and followed by nothing or by any path, the clean-up yields
    scheme and host, dropping the path. *)
Theorem azure_endpoint_base (service host rest : string) :
  service = "openai" \/ service = "cognitive" ->
  host <> "" ->
  all_chars not_slash host = true ->
  rest = "" \/ (exists path, rest = String "/" path) ->
  extract_base_endpoint ("https://" ++ host ++ "." ++ service ++ ".azure.com" ++ rest)
  = "https://" ++ host ++ "." ++ service ++ ".azure.com".
Proof.
  intros Hservice Hhost Hclass Hrest.
  unfold extract_base_endpoint, Re.match_group1.
  set (endpoint := "https://" ++ host ++ "." ++ service ++ ".azure.com" ++ rest).
  rewrite (base_endpoint_group_matches string service host rest _
             (PyStr.take (String.length endpoint - String.length rest) endpoint)
             Hservice Hhost Hclass Hrest (base_endpoint_tail_total rest _)).
  unfold endpoint.
  replace ("https://" ++ host ++ "." ++ service ++ ".azure.com" ++ rest)
    with (("https://" ++ host ++ "." ++ service ++ ".azure.com") ++ rest).
  - apply take_app_exact.
  - rewrite !append_assoc. reflexivity.
Qed.

(** The endpoints of the parsing test: a deployment path, a bare slash,
    the [cognitive] host, and nothing after the host. *)
Lemma azure_endpoint_base_witness :
  extract_base_endpoint
    ("https://" ++ "test" ++ "." ++ "openai" ++ ".azure.com" ++ "/deployments/test")
  = "https://" ++ "test" ++ "." ++ "openai" ++ ".azure.com"
  /\ extract_base_endpoint
       ("https://" ++ "test" ++ "." ++ "cognitive" ++ ".azure.com" ++ "/")
     = "https://" ++ "test" ++ "." ++ "cognitive" ++ ".azure.com"
  /\ extract_base_endpoint
       ("https://" ++ "test" ++ "." ++ "openai" ++ ".azure.com" ++ "")
     = "https://" ++ "test" ++ "." ++ "openai" ++ ".azure.com".
Proof.
  split; [|split].
  - apply (azure_endpoint_base "openai" "test" "/deployments/test").
    + left. reflexivity.
    + discriminate.
    + reflexivity.
    + right. exists "deployments/test". reflexivity.
  - apply (azure_endpoint_base "cognitive" "test" "/").
    + right. reflexivity.
    + discriminate.
    + reflexivity.
    + right. exists "". reflexivity.
  - apply (azure_endpoint_base "openai" "test" "").
    + left. reflexivity.
    + discriminate.
    + reflexivity.
    + left. reflexivity.
Defined.

(* ===================================================================== *)
(** ** The unpatched service, end to end                                   *)
(* ===================================================================== *)

(** X15. In the unpatched service the handler of [get_coding_answer] is
    never reached: [generate_completion] always returns, and the answer is
    the text it returned, its truncation, or the fixed message
    ["Unable to generate answer. Please try again."]; a failure to connect
    is therefore never reported as
    ["Error: Unable to connect to AI service."]. *)
Theorem service_answer_comes_from_completion (env : Env) (s : Settings)
    (question : string) (w : World) :
  exists response w',
    generate_completion env s (coding_messages question)
      (MAX_TOKENS s) (TEMPERATURE s) (1 # 1) w = (Return response, w')
    /\ get_coding_answer env s question w = (Return (answer_of_response s response), w')
    /\ (response = None ->
        answer_of_response s response = "Unable to generate answer. Please try again.").
Proof.
  destruct (generate_completion_on_total env s (get_llm env s) (coding_messages question)
              (MAX_TOKENS s) (TEMPERATURE s) (1 # 1) w) as (response & w' & E).
  exists response, w'. split; [exact E|]. split.
  - unfold get_coding_answer. destruct response as [text|].
    + rewrite (answer_of_text s (generate_completion env s) question text w w' E).
      reflexivity.
    + rewrite (answer_of_none s (generate_completion env s) question w w' E).
      reflexivity.
  - intros ->. reflexivity.
Qed.

Section HealthyService.
Variable env : Env.
Variable s : Settings.

(** With everything in order the first attempt succeeds, with tenacity or
    without. *)
Lemma get_llm_first_attempt (fallback_to_openai : bool) (w : World)
    (response : ChatCompletion) :
  configured s ->
  LANGCHAIN_AVAILABLE env = true ->
  AzureOpenAI_init env (count is_construction w) (client_args s (60 # 1)) = None ->
  chat_completions_create env (count is_create w)
    (client_args s (60 # 1)) (test_request s (60 # 1)) = Return response ->
  AzureChatOpenAI_init env (chat_model_args s (60 # 1)) = None ->
  exists k,
    get_llm env s fallback_to_openai w
    = (Return (Some (LangChainModel (chat_model_args s (60 # 1)))),
       after (mkWorld (trace w) k) (successful_attempt_events s)).
Proof.
  intros Hc Hlc Hinit Hcall Hmodel.
  destruct (get_llm_configured_cases env s fallback_to_openai w Hc)
    as (k & _ & _ & Hcases).
  exists k.
  assert (R : _create_azure_llm_with_retry env s
                (extract_base_endpoint (AZURE_OPENAI_ENDPOINT s)) (mkWorld (trace w) k)
              = (Return (Some (LangChainModel (chat_model_args s (60 # 1)))),
                 after (mkWorld (trace w) k) (successful_attempt_events s))).
  { pose proof (attempt_succeeds env s
                  (extract_base_endpoint (AZURE_OPENAI_ENDPOINT s))
                  (mkWorld (trace w) k) response Hinit Hcall Hlc Hmodel) as A.
    unfold _create_azure_llm_with_retry, retry.
    destruct (TENACITY_AVAILABLE env); [|exact A].
    apply retrying_success. exact A. }
  rewrite R in Hcases. simpl in Hcases.
  destruct Hcases as [(c & Hr & G)|(msg & [[e He]|Hn] & _)];
    [|discriminate|discriminate].
  injection Hr as <-. exact G.
Qed.

End HealthyService.

(** X16. The service in good health, end to end: with the configuration
    complete, the libraries importable and constructible, the connectivity
    test answered and the model's [invoke] returning [text] for the two
    messages of the question, [get_coding_answer] returns that text, cut to
    the budget if need be, and the run consists of exactly one attempt
    followed by the one request through the model. *)
Theorem healthy_service_answers (env : Env) (s : Settings)
    (question : string) (w : World) (response : ChatCompletion) (text : string) :
  configured s ->
  LANGCHAIN_AVAILABLE env = true ->
  AzureOpenAI_init env (count is_construction w) (client_args s (60 # 1)) = None ->
  chat_completions_create env (count is_create w)
    (client_args s (60 # 1)) (test_request s (60 # 1)) = Return response ->
  AzureChatOpenAI_init env (chat_model_args s (60 # 1)) = None ->
  llm_invoke env (count is_invoke w) (chat_model_args s (60 # 1))
    (coding_messages question) = Return text ->
  exists w',
    get_coding_answer env s question w = (Return (answer_of_response s (Some text)), w')
    /\ trace w'
       = (trace w ++ successful_attempt_events s
          ++ [EvInvoke (chat_model_args s (60 # 1)) (coding_messages question)])%list.
Proof.
  intros Hc Hlc Hinit Hcall Hmodel Hinv.
  destruct (get_llm_first_attempt env s false w response Hc Hlc Hinit Hcall Hmodel)
    as (k & G).
  set (w1 := after (mkWorld (trace w) k) (successful_attempt_events s)) in *.
  assert (I : invoke env (chat_model_args s (60 # 1)) (coding_messages question) w1
              = (Return text,
                 after w1 [EvInvoke (chat_model_args s (60 # 1)) (coding_messages question)])).
  { unfold invoke. unfold w1 at 1. rewrite count_after.
    change (count is_invoke (mkWorld (trace w) k)) with (count is_invoke w).
    simpl List.length. rewrite Nat.add_0_r, Hinv. reflexivity. }
  pose proof (completion_parameters_unused_lemma env s (get_llm env s)
                (coding_messages question) (chat_model_args s (60 # 1)) w w1 _ text G I
                (MAX_TOKENS s) (TEMPERATURE s) (1 # 1)) as E.
  eexists. split.
  - unfold get_coding_answer.
    rewrite (answer_of_text s (generate_completion env s) question text w _ E).
    reflexivity.
  - unfold w1. rewrite after_after. simpl. reflexivity.
Qed.

Lemma healthy_service_answers_witness :
  exists w',
    get_coding_answer (flaky_endpoint true 0 "O(log n)") test_settings
      "What is the time complexity of binary search?" (initial_world None)
    = (Return (answer_of_response test_settings (Some "O(log n)")), w')
    /\ trace w'
       = (trace (initial_world None) ++ successful_attempt_events test_settings
          ++ [EvInvoke (chat_model_args test_settings (60 # 1))
                (coding_messages "What is the time complexity of binary search?")])%list.
Proof.
  apply (healthy_service_answers (flaky_endpoint true 0 "O(log n)") test_settings
           "What is the time complexity of binary search?" (initial_world None)
           (mkChatCompletion [Some "O(log n)"]) "O(log n)").
  - repeat split; discriminate.
  - reflexivity.
  - reflexivity.
  - reflexivity.
  - reflexivity.
  - reflexivity.
Defined.

(* ===================================================================== *)
(** ** Failures of the completion call, patched and unpatched              *)
(* ===================================================================== *)

(** In the unpatched service the completion call of [get_coding_answer]
    never raises. *)
Lemma unpatched_completion_call_returns (env : Env) (s : Settings)
    (question : string) (w w' : World) (e : exn) :
  completion_call s (generate_completion env s) question w <> (Raise e, w').
Proof.
  unfold completion_call.
  destruct (generate_completion_on_total env s (get_llm env s) (coding_messages question)
              (MAX_TOKENS s) (TEMPERATURE s) (1 # 1) w) as (r & w1 & E).
  unfold generate_completion. rewrite E. discriminate.
Qed.

(** C4 (amended). If the call of [generate_completion] that
    [get_coding_answer] makes itself raises, as when the tests patch it
    with a side effect, [get_coding_answer] returns exactly
    ["Error: Unable to connect to AI service."].  In the unpatched service
    that call never raises: an exception raised while the request is
    handled is absorbed by [generate_completion], and the answer is
    ["Unable to generate answer. Please try again."]. *)
Theorem connect_error_only_from_raising_completion_call :
  (forall (s : Settings) (gc : list message -> Z -> Q -> Q -> M (option string))
          (question : string) (e : exn) (w w' : World),
      completion_call s gc question w = (Raise e, w') ->
      get_coding_answer_on s gc question w
      = (Return "Error: Unable to connect to AI service.", w'))
  /\ (forall (env : Env) (s : Settings) (question : string) (e : exn) (w w' : World),
         completion_call s (generate_completion env s) question w <> (Raise e, w'))
  /\ (forall (env : Env) (s : Settings) (question : string) (e : exn) (w w' : World),
         generate_completion_try env s (get_llm env s) (coding_messages question)
           (MAX_TOKENS s) (TEMPERATURE s) (1 # 1) w = (Raise e, w') ->
         get_coding_answer env s question w
         = (Return "Unable to generate answer. Please try again.", w')).
Proof.
  split; [|split].
  - intros s gc question e w w'. apply answer_of_raise.
  - intros env s question e w w'. apply unpatched_completion_call_returns.
  - intros env s question e w w' H.
    apply answer_of_none. unfold completion_call.
    apply generate_completion_on_absorbs with (e := e). exact H.
Qed.

(** The error test of the suite, [side_effect = Exception("API Error")],
    and the unpatched service over an endpoint that refuses the request. *)
Lemma connect_error_only_from_raising_completion_call_witness :
  get_coding_answer_on test_settings
    (mock_raises (mkExn (OtherError "Exception") "API Error"))
    "Test question" (initial_world None)
  = (Return "Error: Unable to connect to AI service.", initial_world None)
  /\ fst (get_coding_answer request_down_endpoint test_settings "Test question"
            (initial_world None))
     = Return "Unable to generate answer. Please try again.".
Proof.
  pose proof connect_error_only_from_raising_completion_call as (Hpatched & _ & Hreal).
  split.
  - apply (Hpatched test_settings
             (mock_raises (mkExn (OtherError "Exception") "API Error"))
             "Test question" (mkExn (OtherError "Exception") "API Error")
             (initial_world None) (initial_world None)).
    reflexivity.
  - erewrite (Hreal request_down_endpoint test_settings "Test question"
                connection_error (initial_world None)); [reflexivity|].
    vm_compute. reflexivity.
Defined.

(** C4 as stated fails in the unpatched service: the connectivity test is
    answered, the request raises through the model and again through the
    raw client, and the answer is the other fixed message. *)
Lemma request_failure_is_not_connect_error :
  llm_invoke request_down_endpoint 0
    (chat_model_args test_settings (60 # 1)) (coding_messages "Test question")
  = Raise connection_error
  /\ chat_completions_create request_down_endpoint 1
       (client_args test_settings (60 # 1))
       (completion_request test_settings (coding_messages "Test question")
          1000 (7 # 10) (1 # 1) (60 # 1))
     = Raise connection_error
  /\ fst (get_coding_answer request_down_endpoint test_settings "Test question"
            (initial_world None))
     = Return "Unable to generate answer. Please try again."
  /\ outbound_calls (trace (snd (get_coding_answer request_down_endpoint test_settings
                                   "Test question" (initial_world None)))) = 3%nat
  /\ "Unable to generate answer. Please try again."
     <> "Error: Unable to connect to AI service.".
Proof.
  repeat split; try reflexivity. discriminate.
Qed.

(** C8 (amended). For the empty question [get_coding_answer] makes the
    completion call all the same: its effects are exactly those of the call
    on the messages built from [""], whose user message is the bare prefix;
    and in every configuration whose [MAX_ANSWER_LENGTH] is at least 3 (the
    default is 200) a completion ["N/A"] comes back as ["N/A"]. *)
Theorem empty_question_still_asked (s : Settings)
    (gc : list message -> Z -> Q -> Q -> M (option string)) (w w' : World) :
  3 <= MAX_ANSWER_LENGTH s ->
  completion_call s gc "" w = (Return (Some "N/A"), w') ->
  get_coding_answer_on s gc "" w = (Return "N/A", w')
  /\ snd (get_coding_answer_on s gc "" w)
     = snd (gc [ mkMessage "system" system_prompt;
                 mkMessage "user" "Answer this coding interview question: " ]
              (MAX_TOKENS s) (TEMPERATURE s) (1 # 1) w).
Proof.
  intros Hmax Hcall. split.
  - rewrite (answer_of_text _ _ _ _ _ _ Hcall).
    replace (PyStr.len "N/A" >? MAX_ANSWER_LENGTH s) with false; [reflexivity|].
    symmetry. rewrite Z.gtb_ltb. apply Z.ltb_ge. exact Hmax.
  - rewrite answer_of_world. reflexivity.
Qed.

Lemma empty_question_still_asked_witness :
  get_coding_answer_on test_settings (mock_returns (Some "N/A")) ""
    (initial_world None) = (Return "N/A", initial_world None)
  /\ snd (get_coding_answer_on test_settings (mock_returns (Some "N/A")) ""
            (initial_world None))
     = snd (mock_returns (Some "N/A")
              [ mkMessage "system" system_prompt;
                mkMessage "user" "Answer this coding interview question: " ]
              (MAX_TOKENS test_settings) (TEMPERATURE test_settings) (1 # 1)
              (initial_world None)).
Proof.
  apply (empty_question_still_asked test_settings (mock_returns (Some "N/A"))
           (initial_world None) (initial_world None)).
  - vm_compute. discriminate.
  - reflexivity.
Defined.

(** C8 as stated fails for a budget below 3: with [MAX_ANSWER_LENGTH = 2]
    the three characters of ["N/A"] exceed the budget, the slice stop is
    -1, and the answer is ["N/..."]. *)
Lemma empty_question_small_budget :
  get_coding_answer_on (with_max_answer_length 2 test_settings)
    (mock_returns (Some "N/A")) "" (initial_world None)
  = (Return "N/...", initial_world None)
  /\ "N/..." <> "N/A".
Proof.
  split; [vm_compute; reflexivity|discriminate].
Qed.

(** C10 as stated fails when only the model's [invoke] raises: the request
    is repeated through a raw client, and [generate_completion] returns
    the text that client was answered, not [None]. *)
Lemma invoke_failure_alone_is_recovered :
  llm_invoke (model_down_endpoint "Test response") 0
    (chat_model_args test_settings (60 # 1)) (coding_messages "Test question")
  = Raise (mkExn (OtherError "Exception") "LangChain failed")
  /\ fst (generate_completion (model_down_endpoint "Test response") test_settings
            (coding_messages "Test question") 1000 (7 # 10) (1 # 1) (initial_world None))
     = Return (Some "Test response")
  /\ fst (get_coding_answer (model_down_endpoint "Test response") test_settings
            "Test question" (initial_world None))
     = Return "Test response"
  /\ Some "Test response" <> None.
Proof.
  repeat split; try reflexivity. discriminate.
Qed.

(* ===================================================================== *)
(** ** Configuration, attempts and the order of the sleeps                 *)
(* ===================================================================== *)

(** C5 (amended). If any of the four required configuration values held
    by the settings (API key, endpoint, deployment name, API version) is
    the empty string, [get_llm] raises a [ValueError] and leaves the world
    untouched: no client was constructed, no attempt or retry was made, no
    request was sent, nothing slept.  An API version that is absent from
    the environment is not empty: [os.getenv] gives it the default
    ["2024-02-15-preview"], the configuration is then complete when the
    other three values are set, and [get_llm] goes on to its attempts. *)
Theorem missing_configuration_fails_fast (env : Env) (s : Settings)
    (fallback_to_openai : bool) (w : World) :
  (AZURE_OPENAI_API_KEY s = "" \/ AZURE_OPENAI_ENDPOINT s = ""
   \/ AZURE_OPENAI_DEPLOYMENT_NAME s = "" \/ AZURE_OPENAI_API_VERSION s = "" ->
   exists msg w',
     get_llm env s fallback_to_openai w = (Raise (mkExn ValueError msg), w')
     /\ w' = w
     /\ new_events w w' = []
     /\ outbound_calls (new_events w w') = 0%nat
     /\ attempts (new_events w w') = 0%nat
     /\ sleeps (new_events w w') = [])
  /\ (forall environ : string -> option string,
         environ "AZURE_OPENAI_API_VERSION" = None ->
         AZURE_OPENAI_API_VERSION s
         = getenv environ "AZURE_OPENAI_API_VERSION" "2024-02-15-preview" ->
         AZURE_OPENAI_API_KEY s <> "" ->
         AZURE_OPENAI_ENDPOINT s <> "" ->
         AZURE_OPENAI_DEPLOYMENT_NAME s <> "" ->
         AZURE_OPENAI_API_VERSION s = "2024-02-15-preview"
         /\ configured s
         /\ (forall e w',
                get_llm env s fallback_to_openai w = (Raise e, w') ->
                exn_cls e = RuntimeError)
         /\ exists l,
              trace (snd (get_llm env s fallback_to_openai w)) = (trace w ++ l)%list
              /\ (1 <= attempts l)%nat).
Proof.
  split.
  - intros H. apply unconfigured_missing_vars in H.
    rewrite (get_llm_unconfigured env s fallback_to_openai w H).
    eexists _, w. split; [reflexivity|]. split; [reflexivity|].
    replace w with (after w []) at 2 4 6 8 by apply after_nil.
    rewrite new_events_after. repeat split.
  - intros environ Habsent Hversion K E D.
    unfold getenv in Hversion. rewrite Habsent in Hversion.
    assert (Hc : configured s).
    { repeat split; try assumption. rewrite Hversion. discriminate. }
    split; [exact Hversion|]. split; [exact Hc|].
    destruct (get_llm_configured_cases env s fallback_to_openai w Hc)
      as (k & _ & _ & Hcases).
    destruct (create_with_retry_bounded env s
                (extract_base_endpoint (AZURE_OPENAI_ENDPOINT s)) (mkWorld (trace w) k))
      as (l & El & Ha & _).
    split.
    + intros e w' H.
      destruct Hcases as [(c & _ & G)|(msg & _ & G)]; rewrite G in H;
        [discriminate|]. injection H as <- _. reflexivity.
    + exists l. split; [|lia].
      destruct Hcases as [(c & _ & G)|(msg & _ & G)]; rewrite G, El; reflexivity.
Qed.

(** The missing-variables test: an empty process environment, over an
    endpoint that would answer; and the settings of an environment that
    sets all but the API version. *)
Lemma missing_configuration_fails_fast_witness :
  (exists msg w',
      get_llm (flaky_endpoint true 0 "Hi") (default_settings no_environ) false
        (initial_world None) = (Raise (mkExn ValueError msg), w')
      /\ w' = initial_world None
      /\ new_events (initial_world None) w' = []
      /\ outbound_calls (new_events (initial_world None) w') = 0%nat
      /\ attempts (new_events (initial_world None) w') = 0%nat
      /\ sleeps (new_events (initial_world None) w') = [])
  /\ configured (default_settings environ_without_api_version).
Proof.
  pose proof (missing_configuration_fails_fast (flaky_endpoint true 0 "Hi")
                (default_settings no_environ) false (initial_world None)) as (Hempty & _).
  pose proof (missing_configuration_fails_fast (flaky_endpoint true 0 "Hi")
                (default_settings environ_without_api_version) false (initial_world None))
    as (_ & Habsent).
  split.
  - apply Hempty. left. reflexivity.
  - apply (Habsent environ_without_api_version); try reflexivity; discriminate.
Defined.

(** C5 as stated fails for an absent API version: in an environment that
    sets the other three values the version is the default, [get_llm]
    raises nothing, sends the connectivity test and returns the model. *)
Lemma absent_api_version_is_defaulted :
  environ_without_api_version "AZURE_OPENAI_API_VERSION" = None
  /\ AZURE_OPENAI_API_VERSION (default_settings environ_without_api_version)
     = "2024-02-15-preview"
  /\ get_llm (flaky_endpoint true 0 "Hi")
       (default_settings environ_without_api_version) false (initial_world None)
     = (Return (Some (LangChainModel
                        (chat_model_args (default_settings environ_without_api_version)
                           (60 # 1)))),
        after (initial_world None)
          (successful_attempt_events (default_settings environ_without_api_version)))
  /\ outbound_calls
       (successful_attempt_events (default_settings environ_without_api_version))
     = 1%nat.
Proof.
  repeat split; vm_compute; reflexivity.
Qed.

Section AttemptEvents.
Variable env : Env.
Variable s : Settings.

(** The events of an attempt, however it ends. *)
Lemma attempt_has_attempt_events (endpoint : string) (w : World) :
  exists a,
    snd (create_azure_llm_attempt env s endpoint w) = after w a
    /\ attempt_events s a.
Proof.
  unfold create_azure_llm_attempt, try_except, bind, AzureOpenAI, create,
    AzureChatOpenAI, ret, raise, after, attempt_events. simpl.
  destruct (AzureOpenAI_init env _ _).
  - eexists [_]. simpl. split; [reflexivity|]. eexists. repeat split.
  - destruct (chat_completions_create env _ _ _).
    + destruct (LANGCHAIN_AVAILABLE env); [destruct (AzureChatOpenAI_init env _)|];
        simpl; rewrite <- !app_assoc; simpl;
        eexists [_; _; _]; (split; [reflexivity|]); eexists; repeat split.
    + simpl. rewrite <- !app_assoc. simpl.
      eexists [_; _]. split; [reflexivity|]. eexists. repeat split.
Qed.

Lemma attempt_raises_events (endpoint : string) (w w1 : World) (e : exn) :
  create_azure_llm_attempt env s endpoint w = (Raise e, w1) ->
  exists a, w1 = after w a /\ attempt_events s a.
Proof.
  intros H. destruct (attempt_has_attempt_events endpoint w) as (a & Ha & Hev).
  rewrite H in Ha. simpl in Ha. eauto.
Qed.


Lemma successful_attempt_is_attempt : attempt_events s (successful_attempt_events s).
Proof.
  eexists. repeat split.
Qed.

(** The decorated function does not read its parameter either. *)
Lemma create_with_retry_ignores_endpoint (endpoint1 endpoint2 : string) :
  _create_azure_llm_with_retry env s endpoint1
  = _create_azure_llm_with_retry env s endpoint2.
Proof.
  reflexivity.
Qed.

(** [get_llm] with the configuration complete, in terms of the decorated
    function run in the cleaned world. *)
Lemma get_llm_after_cleaning (fallback_to_openai : bool) (endpoint : string) (w : World) :
  configured s ->
  (forall c w',
      _create_azure_llm_with_retry env s endpoint (cleaned s w) = (Return (Some c), w') ->
      get_llm env s fallback_to_openai w = (Return (Some c), w'))
  /\ (forall e w',
         _create_azure_llm_with_retry env s endpoint (cleaned s w) = (Raise e, w') ->
         exists msg, get_llm env s fallback_to_openai w = (Raise (mkExn RuntimeError msg), w')).
Proof.
  intros Hc.
  destruct (get_llm_configured_cases env s fallback_to_openai w Hc)
    as (k & Hk & _ & Hcases).
  unfold cleaned. rewrite Hk. simpl.
  rewrite (create_with_retry_ignores_endpoint endpoint
             (extract_base_endpoint (AZURE_OPENAI_ENDPOINT s))).
  destruct (_create_azure_llm_with_retry env s _ _) as [r w1]. simpl in Hcases.
  split.
  - intros c w' H. injection H as -> ->.
    destruct Hcases as [(c0 & Hr & G)|(msg & [[e He]|Hn] & _)]; try discriminate.
    injection Hr as <-. exact G.
  - intros e w' H. injection H as -> ->.
    destruct Hcases as [(c0 & Hr & _)|(msg & _ & G)]; [discriminate|]. eauto.
Qed.

End AttemptEvents.





(** C7 (amended). When tenacity imports: if the construction-plus-
    connectivity check fails on the first two attempts and succeeds on the
    third, each attempt made 4 seconds after the failure before it, the
    decorated function returns the client of the third attempt, which is
    the LangChain model; the run is a failed attempt, a sleep of 4 seconds,
    a failed attempt, a sleep of 4 seconds and the successful attempt; and
    [get_llm], whose attempts start once the configuration is found
    complete, returns that client.  When tenacity does not import, the
    stand-in decorator does not retry: a failure of the first attempt is
    the failure of the decorated function, and [get_llm] raises a
    [RuntimeError] after that one attempt, whatever a later attempt would
    have done. *)
Theorem retry_recovers (env : Env) (s : Settings) (endpoint : string) (w0 : World) :
  (TENACITY_AVAILABLE env = true ->
   forall (e1 e2 : exn) (w1 w2 w3 : World) (c : option Client),
     create_azure_llm_attempt env s endpoint w0 = (Raise e1, w1) ->
     create_azure_llm_attempt env s endpoint (after w1 [EvSleep 4]) = (Raise e2, w2) ->
     create_azure_llm_attempt env s endpoint (after w2 [EvSleep 4]) = (Return c, w3) ->
     _create_azure_llm_with_retry env s endpoint w0 = (Return c, w3)
     /\ c = Some (LangChainModel (chat_model_args s (60 # 1)))
     /\ (exists client, c = Some client /\ has_invoke client = true)
     /\ (exists a1 a2,
            w3 = after w0 (a1 ++ EvSleep 4 :: a2 ++ EvSleep 4
                              :: successful_attempt_events s)
            /\ attempt_events s a1 /\ attempt_events s a2)
     /\ (forall (fallback_to_openai : bool) (w : World),
            configured s -> cleaned s w = w0 ->
            get_llm env s fallback_to_openai w = (Return c, w3)))
  /\ (TENACITY_AVAILABLE env = false ->
      forall (e1 : exn) (w1 : World),
        create_azure_llm_attempt env s endpoint w0 = (Raise e1, w1) ->
        _create_azure_llm_with_retry env s endpoint w0 = (Raise e1, w1)
        /\ (exists a1, w1 = after w0 a1 /\ attempt_events s a1)
        /\ (forall (fallback_to_openai : bool) (w : World),
               configured s -> cleaned s w = w0 ->
               exists msg,
                 get_llm env s fallback_to_openai w
                 = (Raise (mkExn RuntimeError msg), w1))).
Proof.
  split.
  - intros Hten e1 e2 w1 w2 w3 c H1 H2 H3.
    assert (R : _create_azure_llm_with_retry env s endpoint w0 = (Return c, w3)).
    { unfold _create_azure_llm_with_retry, retry. rewrite Hten.
      change (3 - 1)%nat with 2%nat.
      rewrite (retrying_again _ _ _ _ _ _ _ _ _ H1).
      change (tenacity.wait_exponential 1 4 10 1) with 4.
      rewrite (retrying_again _ _ _ _ _ _ _ _ _ H2).
      change (tenacity.wait_exponential 1 4 10 2) with 4.
      apply retrying_success. exact H3. }
    destruct (attempt_raises_events env s endpoint _ _ _ H1) as (a1 & -> & Hev1).
    destruct (attempt_raises_events env s endpoint _ _ _ H2) as (a2 & -> & Hev2).
    destruct (attempt_returns_inv env s endpoint _ _ _ H3) as (-> & -> & _).
    split; [exact R|]. split; [reflexivity|].
    split; [eexists; split; reflexivity|]. split.
    + exists a1, a2. split; [|auto].
      rewrite !after_after. repeat rewrite <- app_assoc. reflexivity.
    + intros fallback_to_openai w Hc Hw. subst w0.
      destruct (get_llm_after_cleaning env s fallback_to_openai endpoint w Hc) as (Hret & _).
      apply Hret. exact R.
  - intros Hten e1 w1 H1.
    assert (R : _create_azure_llm_with_retry env s endpoint w0 = (Raise e1, w1)).
    { unfold _create_azure_llm_with_retry, retry. rewrite Hten. exact H1. }
    split; [exact R|]. split.
    + apply (attempt_raises_events env s endpoint _ _ _ H1).
    + intros fallback_to_openai w Hc Hw. subst w0.
      destruct (get_llm_after_cleaning env s fallback_to_openai endpoint w Hc) as (_ & Hraise).
      apply (Hraise _ _ R).
Qed.

(** The flaky endpoint, two refusals and then an answer, with tenacity and
    without. *)
Lemma retry_recovers_witness :
  get_llm (flaky_endpoint true 2 "Hi") test_settings false (initial_world None)
  = (Return (Some (LangChainModel (chat_model_args test_settings (60 # 1)))),
     after (initial_world None)
       (failed_attempt_events test_settings
        ++ EvSleep 4 :: failed_attempt_events test_settings
        ++ EvSleep 4 :: successful_attempt_events test_settings))
  /\ exists msg,
       get_llm (flaky_endpoint false 2 "Hi") test_settings false (initial_world None)
       = (Raise (mkExn RuntimeError msg),
          after (initial_world None) (failed_attempt_events test_settings)).
Proof.
  pose proof (retry_recovers (flaky_endpoint true 2 "Hi") test_settings
                "https://test.openai.azure.com" (initial_world None)) as (Hwith & _).
  pose proof (retry_recovers (flaky_endpoint false 2 "Hi") test_settings
                "https://test.openai.azure.com" (initial_world None)) as (_ & Hwithout).
  split.
  - destruct (Hwith eq_refl connection_error connection_error
                (after (initial_world None) (failed_attempt_events test_settings))
                (after (initial_world None)
                   (failed_attempt_events test_settings
                    ++ EvSleep 4 :: failed_attempt_events test_settings))
                (after (initial_world None)
                   (failed_attempt_events test_settings
                    ++ EvSleep 4 :: failed_attempt_events test_settings
                    ++ EvSleep 4 :: successful_attempt_events test_settings))
                (Some (LangChainModel (chat_model_args test_settings (60 # 1))))
                eq_refl eq_refl eq_refl) as (_ & _ & _ & _ & Hget).
    apply Hget; [repeat split; discriminate|reflexivity].
  - destruct (Hwithout eq_refl connection_error
                (after (initial_world None) (failed_attempt_events test_settings))
                eq_refl) as (_ & _ & Hget).
    apply Hget; [repeat split; discriminate|reflexivity].
Defined.

(* ===================================================================== *)
(** ** The start-up check against the settings                             *)
(* ===================================================================== *)

(** X11. The start-up check and [get_llm], for settings whose API key,
    endpoint and deployment name are what [os.getenv] returns for the
    upper-case variable names (what the class body of [Settings] reads).
    If [check_environment] fails, [get_llm] raises its [ValueError]
    without touching anything.  If it passes and the API version of the
    settings is not empty, the configuration is complete and [get_llm]
    cannot raise a [ValueError].  The check does not look at the API
    version: if the settings hold an empty one the check passes and
    [get_llm] still raises the [ValueError], naming that variable. *)
Theorem startup_check_and_get_llm (environ : string -> option string)
    (env : Env) (s : Settings) (fallback_to_openai : bool) (w : World) :
  AZURE_OPENAI_API_KEY s = getenv environ "AZURE_OPENAI_API_KEY" "" ->
  AZURE_OPENAI_ENDPOINT s = getenv environ "AZURE_OPENAI_ENDPOINT" "" ->
  AZURE_OPENAI_DEPLOYMENT_NAME s = getenv environ "AZURE_OPENAI_DEPLOYMENT_NAME" "" ->
  (main.check_environment environ = false ->
   exists msg,
     get_llm env s fallback_to_openai w = (Raise (mkExn ValueError msg), w))
  /\ (main.check_environment environ = true ->
      AZURE_OPENAI_API_VERSION s <> "" ->
      configured s
      /\ forall e w',
           get_llm env s fallback_to_openai w = (Raise e, w') ->
           exn_cls e = RuntimeError)
  /\ (main.check_environment environ = true ->
      AZURE_OPENAI_API_VERSION s = "" ->
      get_llm env s fallback_to_openai w
      = (Raise (mkExn ValueError
                  ("Missing required Azure OpenAI configuration values: "
                   ++ "AZURE_OPENAI_API_VERSION")), w)).
Proof.
  intros HK HE HD.
  split; [|split].
  - intros Hcheck.
    eexists. apply get_llm_unconfigured. apply unconfigured_missing_vars.
    rewrite HK, HE, HD.
    destruct (PyStr.truthy (getenv environ "AZURE_OPENAI_API_KEY" "")) eqn:K;
      [|left; apply truthy_false; exact K].
    destruct (PyStr.truthy (getenv environ "AZURE_OPENAI_ENDPOINT" "")) eqn:E;
      [|right; left; apply truthy_false; exact E].
    destruct (PyStr.truthy (getenv environ "AZURE_OPENAI_DEPLOYMENT_NAME" "")) eqn:D;
      [|right; right; left; apply truthy_false; exact D].
    exfalso.
    assert (T : main.check_environment environ = true).
    { apply check_environment_true. rewrite !env_truthy_getenv. auto. }
    rewrite T in Hcheck. discriminate.
  - intros Hcheck Hversion.
    apply check_environment_true in Hcheck. rewrite !env_truthy_getenv in Hcheck.
    rewrite <- HK, <- HE, <- HD in Hcheck. destruct Hcheck as (K & E & D).
    assert (Hc : configured s).
    { unfold configured. rewrite <- !PyStrFacts.truthy_iff.
      repeat split; try assumption. apply PyStrFacts.truthy_iff. exact Hversion. }
    split; [exact Hc|].
    intros e w' H.
    destruct (get_llm_configured_cases env s fallback_to_openai w Hc)
      as (k & _ & _ & [(c & _ & G)|(msg & _ & G)]);
      rewrite G in H; [discriminate|]. injection H as <- _. reflexivity.
  - intros Hcheck Hversion.
    apply check_environment_true in Hcheck. rewrite !env_truthy_getenv in Hcheck.
    rewrite <- HK, <- HE, <- HD in Hcheck. destruct Hcheck as (K & E & D).
    assert (Hm : missing_vars s = ["AZURE_OPENAI_API_VERSION"]).
    { unfold missing_vars, required_vars. rewrite Hversion.
      destruct (AZURE_OPENAI_API_KEY s); [discriminate|].
      destruct (AZURE_OPENAI_ENDPOINT s); [discriminate|].
      destruct (AZURE_OPENAI_DEPLOYMENT_NAME s); [discriminate|].
      reflexivity. }
    rewrite get_llm_unconfigured by (rewrite Hm; eauto).
    rewrite Hm. reflexivity.
Qed.

Lemma startup_check_and_get_llm_witness :
  configured test_settings
  /\ exists msg,
       get_llm (dead_endpoint true) (default_settings no_environ) false (initial_world None)
       = (Raise (mkExn ValueError msg), initial_world None).
Proof.
  pose proof (startup_check_and_get_llm (azure_environ "https://test.openai.azure.com/")
                (dead_endpoint true) test_settings false (initial_world None)
                eq_refl eq_refl eq_refl) as (_ & Hpass & _).
  pose proof (startup_check_and_get_llm no_environ
                (dead_endpoint true) (default_settings no_environ) false (initial_world None)
                eq_refl eq_refl eq_refl) as (Hfail & _).
  split.
  - apply Hpass; [reflexivity|discriminate].
  - apply Hfail. reflexivity.
Defined.
